(** * finetune.ipynb: evaluation and fine-tuning pipeline

    A shallow embedding of the notebook's authored cells: the accelerator
    check, the train/validation split, the baseline scorer, the tokenization
    mapper and the training configuration.

    Conventions.
    - A Python [float] is an IEEE binary64 value: Rocq's primitive [float],
      whose operations round exactly as Python's do.
    - A notebook cell that prints or may raise runs in the monad [py]: the
      lines written to stdout together with either the raised exception or
      the value.
    - A [DatasetDict] is a dictionary from split names to row lists: a
      [gmap string].
    - Calls into the external frameworks (datasets, transformers) whose code
      is not part of the notebook are taken as section variables or modelled
      in the modules [datasets] and [transformers]; each such definition says
      so. *)

From Stdlib Require Import ZArith Floats.
From stdpp Require Import base option list gmap strings pretty sorting.

Set Warnings "-inexact-float".
Local Open Scope string_scope.

(** ** Python effects: stdout and exceptions *)

Module Py.

Inductive exception : Type :=
  | ZeroDivisionError
  | KeyError (key : string)
  | IndexError
  | ValueError (msg : string).

(** Either the exception that ended a computation, or its value. *)
Definition result (A : Type) : Type := exception + A.

#[global] Instance result_ret : MRet result := λ A a, inr a.

#[global] Instance result_bind : MBind result := λ A B k r,
  match r with
  | inl e => inl e
  | inr a => k a
  end.

(** A cell run: what it printed, and how it ended. *)
Definition py (A : Type) : Type := list string * result A.

#[global] Instance py_ret : MRet py := λ A a, ([], inr a).

#[global] Instance py_bind : MBind py := λ A B k m,
  match m with
  | (out, inl e) => (out, inl e)
  | (out, inr a) => let '(out', r) := k a in ((out ++ out')%list, r)
  end.

Definition raise {A} (e : exception) : py A := ([], inl e).

Definition print (line : string) : py unit := ([line], inr tt).

Definition lift {A} (r : result A) : py A := ([], r).

Definition stdout {A} (m : py A) : list string := fst m.

Definition outcome {A} (m : py A) : result A := snd m.

(** [d[k]] on a dictionary. *)
Definition getitem {V} (d : gmap string V) (k : string) : result V :=
  match d !! k with
  | Some v => inr v
  | None => inl (KeyError k)
  end.

End Py.

(** ** Python floats *)

Module Float64.

(** [float(n)] for an integer: the nearest binary64, ties to even. *)
Definition of_Z (z : Z) : float :=
  SF2Prim (binary_normalize prec emax z 0 false).

Definition of_nat (n : nat) : float := of_Z (Z.of_nat n).

(** Nearest integer, ties to even, of [m / 2^k] for [m >= 0]. *)
Definition div2k_half_even (m : Z) (k : Z) : Z :=
  let d := (2 ^ k)%Z in
  let q := (m / d)%Z in
  let r := (m mod d)%Z in
  match (2 * r ?= d)%Z with
  | Lt => q
  | Gt => (q + 1)%Z
  | Eq => if Z.even q then q else (q + 1)%Z
  end.

(** C's [rint] in the default rounding mode, which numpy's [rint] calls:
    the nearest integral float, ties to even, the sign kept. *)
Definition rint (x : float) : float :=
  match Prim2SF x with
  | S754_finite s m e =>
      if (0 <=? e)%Z then x
      else
        let n := of_Z (div2k_half_even (Zpos m) (- e)) in
        if s then (- n)%float else n
  | _ => x
  end.

(** numpy's [round(x, 2)]: scale by 100, [rint], scale back. *)
Definition round2 (x : float) : float := (rint (x * 100) / 100)%float.

(** [math.ceil] on a finite float, as an integer. *)
Definition ceil (x : float) : Z :=
  match Prim2SF x with
  | S754_finite s m e =>
      let v := if s then Zneg m else Zpos m in
      if (0 <=? e)%Z then (v * 2 ^ e)%Z
      else (- ((- v) / 2 ^ (- e)))%Z
  | _ => 0%Z
  end.

Definition two_digits (n : Z) : string :=
  (if (n <? 10)%Z then "0" else "") ++ pretty n.

(** ["{:.2f}".format(x)]: the exact binary value rounded to two decimals,
    ties to even. *)
Definition format_2f (x : float) : string :=
  match Prim2SF x with
  | S754_nan => "nan"
  | S754_infinity s => if s then "-inf" else "inf"
  | S754_zero s => if s then "-0.00" else "0.00"
  | S754_finite s m e =>
      let c :=
        if (0 <=? e)%Z then (Zpos m * 2 ^ e * 100)%Z
        else div2k_half_even (Zpos m * 100) (- e) in
      (if s then "-" else "") ++ pretty (c / 100)%Z ++ "." ++ two_digits (c mod 100)%Z
  end.

End Float64.

(** ** Environment check (the cell that tests [torch.cuda.is_available()]) *)

Module Env.

Definition gpu_available_msg : string := "GPU acceleration is available!".

Definition gpu_unavailable_msg : string :=
  "GPU acceleration is NOT available! Training, fine-tuning, and inference speed will be adversely impacted.".

(** The [if]/[else] of the cell; [cuda_is_available] is what
    [torch.cuda.is_available()] returned. *)
Definition check_gpu (cuda_is_available : bool) : Py.py unit :=
  if cuda_is_available then Py.print gpu_available_msg
  else Py.print gpu_unavailable_msg.

(** Modelled from the spec: [enable_full_determinism] is the external
    framework's, not the notebook's; in line with the spec's reproducible
    runs it fixes the global random seed to its argument and returns
    nothing. The value is the global seed it leaves behind. *)
Definition enable_full_determinism (seed : Z) : Z := seed.

(** The whole cell: the check, then [enable_full_determinism(True)]; the
    Python [True] passed as the seed is the integer 1. The cell leaves the
    global seed behind. *)
Definition cell (cuda_is_available : bool) : Py.py Z :=
  check_gpu cuda_is_available;;
  mret (enable_full_determinism (Z.b2z true)).

End Env.

(** ** Baseline scorer (the cells computing [Correct], [accuracy], [accuracy_df]) *)

Module Scorer.

(** A row of [results_df]: the review text, its true label, the predicted
    label and the confidence score, all as joined by the preceding lines of
    the cell; [C] is [unit] before the [Correct] column exists and [bool]
    once it does. *)
Record row (C : Type) : Type := Row {
  text : string;
  label : string;
  pred : string;
  score : float;
  Correct : C
}.
Arguments Row {C}.
Arguments text {C}.
Arguments label {C}.
Arguments pred {C}.
Arguments score {C}.
Arguments Correct {C}.

(** [results_df["Correct"] = results_df["label"].eq(results_df["pred"])] *)
Definition set_Correct (results_df : list (row unit)) : list (row bool) :=
  (λ r, Row (text r) (label r) (pred r) (score r) (bool_decide (label r = pred r)))
    <$> results_df.

(** [results_df[results_df["Correct"] == True]] *)
Definition correct_rows (results_df : list (row bool)) : list (row bool) :=
  filter (λ r, Correct r = true) results_df.

(** [accuracy = len(results_df[results_df["Correct"] == True]) / len(results_df)]:
    Python's [/] on two integers raises when the divisor is zero and is the
    correctly rounded quotient otherwise. *)
Definition accuracy (results_df : list (row bool)) : Py.result float :=
  match length results_df with
  | O => inl Py.ZeroDivisionError
  | S _ =>
      inr (Float64.of_nat (length (correct_rows results_df))
           / Float64.of_nat (length results_df))%float
  end.

(** The whole cell: the assignment, then the [print]. *)
Definition accuracy_cell (results_df : list (row bool)) : Py.py float :=
  accuracy ← Py.lift (accuracy results_df);
  Py.print ("Accuracy : " ++ Float64.format_2f accuracy);;
  mret accuracy.

(** Distinct values in order of first appearance. *)
Fixpoint unique (l : list string) : list string :=
  match l with
  | [] => []
  | x :: l => x :: filter (λ y, y ≠ x) (unique l)
  end.

(** Number of occurrences of [x]. *)
Definition occurrences (x : string) (l : list string) : nat :=
  length (filter (λ y, y = x) l).

(** The order of [value_counts]: larger counts first. *)
Definition more_frequent (a b : string * nat) : Prop := (b.2 ≤ a.2)%nat.

#[global] Instance more_frequent_dec : RelDecision more_frequent.
Proof. intros a b. unfold more_frequent. apply _. Defined.

(** Insertion into a list in [value_counts] order: before the first entry
    that is not more frequent. *)
Fixpoint insert_by_count (x : string * nat) (l : list (string * nat))
    : list (string * nat) :=
  match l with
  | [] => [x]
  | y :: l' =>
      if decide (more_frequent x y) then x :: y :: l'
      else y :: insert_by_count x l'
  end.

(** The stable sort of [value_counts]: larger counts first, equal counts in
    the order they had. *)
Definition sort_by_count (l : list (string * nat)) : list (string * nat) :=
  foldr insert_by_count [] l.

(** [Series.value_counts()]: each distinct value with its number of
    occurrences, the larger counts first, equal counts in order of first
    appearance. *)
Definition value_counts (column : list string) : list (string * nat) :=
  sort_by_count ((λ x, (x, occurrences x column)) <$> unique column).

(** The rows of one group of [groupby("label")]. *)
Definition group (k : string) (results_df : list (row bool)) : list (row bool) :=
  filter (λ r, label r = k) results_df.

(** [Series.mean()] of a boolean column: the number of [True] over the
    number of entries, in floats. *)
Definition mean (flags : list bool) : float :=
  (Float64.of_nat (length (filter (λ b, b = true) flags))
   / Float64.of_nat (length flags))%float.

(** [results_df.groupby("label")["Correct"].mean()]: one entry per label
    value that occurs, the keys sorted. *)
Definition groupby_label_Correct_mean (results_df : list (row bool))
    : list (string * float) :=
  (λ k, (k, mean (Correct <$> group k results_df)))
    <$> merge_sort String.le (unique (label <$> results_df)).

(** Value of key [k] in an indexed series. *)
Fixpoint at_index {A} (k : string) (series : list (string * A)) : option A :=
  match series with
  | [] => None
  | (k', a) :: series => if decide (k' = k) then Some a else at_index k series
  end.

(** [pd.concat([a, b], axis=1)]: the two series side by side, aligned on
    the union of their indexes (the first index, then the keys only the
    second has); a series without the key leaves the entry missing. *)
Definition concat_axis1 {A B} (a : list (string * A)) (b : list (string * B))
    : list (string * (option A * option B)) :=
  (λ k, (k, (at_index k a, at_index k b)))
    <$> (a.*1 ++ filter (λ k, k ∉ a.*1) b.*1)%list.

(** A row of [accuracy_df] after [reset_index] and the column renaming. *)
Record accuracy_row : Type := AccuracyRow {
  Label : string;
  Count : option nat;
  Accuracy : option float
}.

(** [accuracy_df]: the counts beside the per-label mean of [Correct], the
    latter times 100 and rounded to two decimals. *)
Definition accuracy_df (results_df : list (row bool)) : list accuracy_row :=
  (λ e, AccuracyRow e.1 e.2.1 e.2.2)
    <$> concat_axis1
          (value_counts (label <$> results_df))
          (prod_map id (λ m, Float64.round2 (m * 100)%float)
             <$> groupby_label_Correct_mean results_df).

(** The table entry for a label, if any. *)
Definition accuracy_of (l : string) (table : list accuracy_row) : option accuracy_row :=
  list_find (λ r, Label r = l) table ≫= λ p, Some p.2.

(** A frame from (true label, predicted label) pairs; texts and scores play
    no part in the scores computed here. *)
Definition of_pairs (pairs : list (string * string)) : list (row unit) :=
  (λ p, Row "" p.1 p.2 1%float tt) <$> pairs.

(** The spec's example scenario: the true/predicted label pairs
    (pos,pos), (neg,pos), (neg,neg). *)
Definition example_pairs : list (string * string) :=
  [("pos", "pos"); ("neg", "pos"); ("neg", "neg")].

End Scorer.

(** ** The tokenizer call *)

Module transformers.

(** What the notebook needs of a pretrained tokenizer: the word-piece ids of
    a text (the external framework's vocabulary lookup, left abstract) and
    the ids of the special tokens. *)
Record Tokenizer : Type := {
  tokenize : string → list Z;
  cls_token_id : Z;
  sep_token_id : Z;
  pad_token_id : Z
}.

(** The [padding] argument: [False] is [DO_NOT_PAD], [True] is [LONGEST]. *)
Inductive PaddingStrategy : Type := DO_NOT_PAD | LONGEST | MAX_LENGTH.

(** The model inputs a tokenizer call returns. *)
Record BatchEncoding : Type := Encoding {
  input_ids : list Z;
  attention_mask : list Z
}.

(** The two special tokens wrapped around a single sequence. *)
Definition num_special_tokens : nat := 2.

(** Modelled from the spec: the tokenizer call is the external framework's,
    [tokenizer(text, truncation=..., padding=..., max_length=...)] on one
    text. With [truncation] the token sequence is cut at the end so that,
    the special tokens included, at most [max_length] ids remain ("truncation
    of the text to a fixed maximum token length"); padding to [max_length]
    is appended only under [MAX_LENGTH] ([LONGEST] pads to the longest
    sequence of the call, which for one text is the text itself); the
    attention mask is 1 on tokens and 0 on padding. *)
Definition call (tokenizer : Tokenizer) (text : string) (truncation : bool)
    (padding : PaddingStrategy) (max_length : nat) : BatchEncoding :=
  let ids := tokenize tokenizer text in
  let ids := if truncation then take (max_length - num_special_tokens) ids else ids in
  let ids := cls_token_id tokenizer :: ids ++ [sep_token_id tokenizer] in
  let n_pad :=
    match padding with
    | MAX_LENGTH => max_length - length ids
    | DO_NOT_PAD | LONGEST => 0
    end in
  Encoding (ids ++ replicate n_pad (pad_token_id tokenizer))
           (replicate (length ids) 1%Z ++ replicate n_pad 0%Z).

End transformers.

(** ** Datasets: rows, splits, [train_test_split], [map] *)

Module datasets.

(** A row of the review dataset; the two token columns are absent until the
    tokenization mapper has run. *)
Record example : Type := Example {
  label : Z;
  title : string;
  text : string;
  input_ids : option (list Z);
  attention_mask : option (list Z)
}.

Abbreviation Dataset := (list example).
Abbreviation DatasetDict := (gmap string (list example)).

#[global] Instance example_inhabited : Inhabited example :=
  populate (Example 0 "" "" None None).

(** [Dataset.select(indices)]: the rows at the given positions, in that
    order; a position past the end raises. *)
Definition select (self : Dataset) (indices : list nat) : Py.result Dataset :=
  match mapM (λ i, self !! i) indices with
  | Some rows => inr rows
  | None => inl Py.IndexError
  end.

(** Modelled from the spec: what the external framework's stratified sampler
    must return for [n] rows (the spec's "stratified random split ... into
    (new-train, validation)" with "validation ... disjoint from, and a
    subset-complement of, the original train partition"): [n_train] and
    [n_test] row positions, none twice, all below [n]. *)
Definition is_split (n n_train n_test : nat) (indices : list nat * list nat) : Prop :=
  length indices.1 = n_train ∧ length indices.2 = n_test ∧
  NoDup (indices.1 ++ indices.2) ∧ Forall (λ i, i < n) (indices.1 ++ indices.2).

#[global] Instance is_split_dec n n_train n_test indices :
  Decision (is_split n n_train n_test indices).
Proof. unfold is_split. apply _. Defined.

(** Modelled from the spec: the exception [train_test_split] raises when its
    stratified sampler raised [error]. The sampler's complaint about a class
    with a single member is replaced by a [ValueError] naming the column;
    any other exception is raised again as it is. *)
Definition stratify_error (error : Py.exception) : Py.exception :=
  match error with
  | Py.ValueError "Minimum class count error" =>
      Py.ValueError
        "The least populated class in label column has only 1 member, which is too few. The minimum number of groups for any class cannot be less than 2."
  | _ => error
  end.

Section train_test_split.

(** The external framework's random generator and stratified sampler: the
    generator seeded with an integer, and the sampler that draws the train
    and test row positions from the label column, the two sizes and the
    generator. *)
Context {Generator : Type}.
Variable default_rng : Z → Generator.
Variable stratified_shuffle_split :
  list Z → nat → nat → Generator → Py.result (list nat * list nat).

(** Modelled from the spec: [Dataset.train_test_split] is the external
    framework's, called here with a float [test_size], a [seed] and
    [stratify_by_column="label"]. An empty dataset is returned as both
    splits. Otherwise the test split takes the proportion [test_size] of
    the rows, rounded up, the train split the rest; the row positions are
    drawn by the sampler from a generator seeded with [seed] (or, without a
    seed, with one read from the global random state [global_seed]), an
    exception of the sampler being raised again as [stratify_error] has it;
    the two splits are the rows selected at those positions. *)
Definition train_test_split (self : Dataset) (test_size : float)
    (seed : option Z) (global_seed : Z) : Py.result DatasetDict :=
  if decide (length self = 0) then
    inr ({[ "train" := self; "test" := self ]} : DatasetDict)
  else if negb ((0 <? test_size)%float && (test_size <? 1)%float) then
    inl (Py.ValueError "test_size should be in the (0, 1) range")
  else
    let n_samples := length self in
    let n_test := Z.to_nat (Float64.ceil (test_size * Float64.of_nat n_samples)%float) in
    let n_train := n_samples - n_test in
    if decide (n_train = 0) then
      inl (Py.ValueError "the resulting train set will be empty")
    else
      let generator := default_rng (default global_seed seed) in
      match stratified_shuffle_split (label <$> self) n_train n_test generator with
      | inl error => inl (stratify_error error)
      | inr indices =>
          train_split ← select self indices.1;
          test_split ← select self indices.2;
          mret ({[ "train" := train_split; "test" := test_split ]} : DatasetDict)
      end.

(** The split cell for a proportion and a seed:
    [ds_train_val = ds["train"].train_test_split(test_size=p, seed=s, stratify_by_column="label")],
    the two assignments into [ds], and the three [print]s. The value is
    [ds] as the cell leaves it. *)
Definition split_with (test_size : float) (seed : Z) (global_seed : Z)
    (ds : DatasetDict) : Py.py DatasetDict :=
  train ← Py.lift (Py.getitem ds "train");
  ds_train_val ← Py.lift (train_test_split train test_size (Some seed) global_seed);
  new_train ← Py.lift (Py.getitem ds_train_val "train");
  let ds := <["train" := new_train]> ds in
  validation ← Py.lift (Py.getitem ds_train_val "test");
  let ds := <["validation" := validation]> ds in
  train ← Py.lift (Py.getitem ds "train");
  Py.print ("Samples in train      : " ++ pretty (length train));;
  validation ← Py.lift (Py.getitem ds "validation");
  Py.print ("Samples in validation : " ++ pretty (length validation));;
  test ← Py.lift (Py.getitem ds "test");
  Py.print ("Samples in test       : " ++ pretty (length test));;
  mret ds.

(** The cell as written: [test_size=0.1, seed=42]. *)
Definition split_cell : Z → DatasetDict → Py.py DatasetDict :=
  split_with 0.1 42.

End train_test_split.

(** One row under [map]: the row updated with the columns the function
    returns. *)
Definition update (function : example → transformers.BatchEncoding) (ex : example)
    : example :=
  let enc := function ex in
  Example (label ex) (title ex) (text ex)
    (Some (transformers.input_ids enc)) (Some (transformers.attention_mask enc)).

(** [Dataset.map(function)] without batching: each row updated. *)
Definition Dataset_map (function : example → transformers.BatchEncoding)
    (self : Dataset) : Dataset :=
  update function <$> self.

(** [DatasetDict.map(function)]: every split mapped. *)
Definition DatasetDict_map (function : example → transformers.BatchEncoding)
    (self : DatasetDict) : DatasetDict :=
  Dataset_map function <$> self.

End datasets.

(** ** Tokenization mapper (the cell defining [preprocess_function]) *)

Module Tokenization.

(** [preprocess_function]: 512 because the model is BERT. *)
Definition preprocess_function (tokenizer : transformers.Tokenizer)
    (examples : datasets.example) : transformers.BatchEncoding :=
  transformers.call tokenizer (datasets.text examples)
    true transformers.DO_NOT_PAD 512.

(** [ds = ds.map(partial(preprocess_function, tokenizer))] *)
Definition tokenize_cell (tokenizer : transformers.Tokenizer)
    (ds : datasets.DatasetDict) : datasets.DatasetDict :=
  datasets.DatasetDict_map (preprocess_function tokenizer) ds.

End Tokenization.

(** ** Fine-tuning configuration (the cell building [args] and [trainer]) *)

Module Training.

Inductive IntervalStrategy : Type := no | steps | epoch.

(** The keyword arguments the notebook passes to [TrainingArguments]. *)
Record TrainingArguments : Type := {
  output_dir : string;
  evaluation_strategy : IntervalStrategy;
  learning_rate : float;
  per_device_train_batch_size : Z;
  per_device_eval_batch_size : Z;
  num_train_epochs : Z;
  weight_decay : float;
  metric_for_best_model : string;
  save_total_limit : Z;
  save_strategy : IntervalStrategy;
  load_best_model_at_end : bool;
  optim : string
}.

(** The one callback class the notebook imports. *)
Inductive TrainerCallback : Type :=
  | EarlyStoppingCallback (early_stopping_patience : Z).

(** The keyword arguments of [Trainer]; an argument that is not passed is
    [None]. *)
Record Trainer (Model Metrics : Type) : Type := {
  model : Model;
  tokenizer : transformers.Tokenizer;
  trainer_args : TrainingArguments;
  train_dataset : datasets.Dataset;
  eval_dataset : datasets.Dataset;
  compute_metrics : list (list float) * list Z → Metrics;
  callbacks : option (list TrainerCallback)
}.
Arguments model {Model Metrics}.
Arguments tokenizer {Model Metrics}.
Arguments trainer_args {Model Metrics}.
Arguments train_dataset {Model Metrics}.
Arguments eval_dataset {Model Metrics}.
Arguments compute_metrics {Model Metrics}.
Arguments callbacks {Model Metrics}.

Definition metric_choice : string := "f1".

Definition args : TrainingArguments := {|
  output_dir := "temp/";
  evaluation_strategy := steps;
  learning_rate := 0.00001;
  per_device_train_batch_size := 32;
  per_device_eval_batch_size := 32;
  num_train_epochs := 1;
  weight_decay := 0.01;
  metric_for_best_model := metric_choice;
  save_total_limit := 2;
  save_strategy := steps;
  load_best_model_at_end := true;
  optim := "adamw_torch"
|}.

Section trainer.

(** The external pieces: the model object, the metric loaded by name
    ([evaluate.load]) whose [compute] takes predictions, references and the
    averaging mode, and numpy's [argmax] along axis 1. *)
Context {Model Metrics : Type}.
Variable evaluate_load : string → list Z → list Z → string → Metrics.
Variable argmax_axis1 : list (list float) → list Z.

Definition METRIC : list Z → list Z → string → Metrics :=
  evaluate_load metric_choice.

(** [compute_metrics]: the pair is [(eval_pred.predictions, eval_pred.label_ids)]. *)
Definition compute_metrics_fn (eval_pred : list (list float) * list Z) : Metrics :=
  let predictions := argmax_axis1 eval_pred.1 in
  METRIC predictions eval_pred.2 "weighted".

(** [trainer = Trainer(model=..., tokenizer=..., args=..., train_dataset=ds["train"],
    eval_dataset=ds["validation"], compute_metrics=...)]; no [callbacks]
    argument is passed. *)
Definition trainer (model : Model) (tokenizer : transformers.Tokenizer)
    (ds : datasets.DatasetDict) : Py.result (Trainer Model Metrics) :=
  train ← Py.getitem ds "train";
  validation ← Py.getitem ds "validation";
  mret {| model := model;
          tokenizer := tokenizer;
          trainer_args := args;
          train_dataset := train;
          eval_dataset := validation;
          compute_metrics := compute_metrics_fn;
          callbacks := None |}.

End trainer.

(** Whether a trainer has an early-stopping policy: some registered callback
    is an [EarlyStoppingCallback]. *)
Definition has_early_stopping {Model Metrics} (t : Trainer Model Metrics) : Prop :=
  ∃ patience, EarlyStoppingCallback patience ∈ default [] (callbacks t).

End Training.

(** ** Sample inputs *)

Module Samples.

(** A tokenizer with one id per character. *)
Definition char_tokenizer : transformers.Tokenizer := {|
  transformers.tokenize := λ text, (λ c, Z.of_N (Ascii.N_of_ascii c)) <$> String.list_ascii_of_string text;
  transformers.cls_token_id := 101;
  transformers.sep_token_id := 102;
  transformers.pad_token_id := 0
|}.

Definition review (label : Z) (text : string) : datasets.example :=
  datasets.Example label "" text None None.

(** A text of 2000 characters. *)
Definition long_text : string := String.concat "" (replicate 2000 "a").

(** [n] reviews, the labels alternating. *)
Definition reviews (n : nat) : datasets.Dataset :=
  (λ i, review (Z.of_nat (i mod 2)) ("review " ++ pretty i)) <$> seq 0 n.

(** A dataset with [n] train rows and two test rows. *)
Definition dataset (n : nat) : datasets.DatasetDict :=
  {[ "train" := reviews n; "test" := reviews 2 ]}.

(** A sampler that ignores labels and generator: the first [n_test]
    positions for test, the next [n_train] for train. *)
Definition head_sampler (labels : list Z) (n_train n_test : nat) (generator : Z)
    : Py.result (list nat * list nat) :=
  inr (seq n_test n_train, seq 0 n_test).

End Samples.

(** ** The import cell and the cell that sets [LD_LIBRARY_PATH] *)

Module Runtime.

(** What a global name is bound to: a module with its [__file__], or some
    other object (a class or a function). *)
Inductive pyobject : Type :=
  | module (file : string)
  | object.

Inductive error : Type :=
  | NameError (name : string)
  | AttributeError (attribute : string).

(** The names the import cell binds, in the order of its statements;
    [file_of] gives the [__file__] of an imported module.
    [import numpy as np] binds [np], [import mlflow.transformers] binds
    [mlflow]. *)
Definition imports (file_of : string → string) : gmap string pyobject :=
  list_to_map
    [("partial", object);
     ("os", module (file_of "os"));
     ("torch", module (file_of "torch"));
     ("argparse", module (file_of "argparse"));
     ("np", module (file_of "numpy"));
     ("pd", module (file_of "pandas"));
     ("evaluate", module (file_of "evaluate"));
     ("enable_full_determinism", object);
     ("pipeline", object);
     ("Trainer", object);
     ("EvalPrediction", object);
     ("DistilBertTokenizer", object);
     ("DistilBertForSequenceClassification", object);
     ("TrainingArguments", object);
     ("EarlyStoppingCallback", object);
     ("BatchEncoding", object);
     ("load_dataset", object);
     ("Dataset", object);
     ("DatasetDict", object);
     ("ClassLabel", object);
     ("LazyBatch", object);
     ("itertools", module (file_of "itertools"));
     ("mlflow", module (file_of "mlflow"))].

(** [s.split('/')]: the pieces between the slashes; never empty. *)
Fixpoint split_slash (s : string) : list string :=
  match s with
  | EmptyString => [""]
  | String c s =>
      if Ascii.eqb c (Ascii.ascii_of_nat 47) then "" :: split_slash s
      else
        match split_slash s with
        | piece :: pieces => String c piece :: pieces
        | [] => [String c ""]
        end
  end.

(** [cuda_install_dir = '/'.join(file.split('/')[:-1]) + '/cuda_runtime/lib/'] *)
Definition cuda_install_dir (file : string) : string :=
  String.concat "/" (removelast (split_slash file)) ++ "/cuda_runtime/lib/".

(** The cell: the global [nvidia] is read for its [__file__], then
    [os.environ['LD_LIBRARY_PATH']] is assigned. The value is the
    environment as the cell leaves it. *)
Definition set_library_path (globals : gmap string pyobject)
    (environ : gmap string string) : error + gmap string string :=
  match globals !! "nvidia" with
  | None => inl (NameError "nvidia")
  | Some object => inl (AttributeError "__file__")
  | Some (module file) =>
      match globals !! "os" with
      | None => inl (NameError "os")
      | Some _ => inr (<["LD_LIBRARY_PATH" := cuda_install_dir file]> environ)
      end
  end.

End Runtime.

(** ** Baseline evaluation frame (the cells building [sentences], [df_test]
    and [results_df]) *)

Module Baseline.

(** [id2label] of the baseline model. *)
Definition id2label : gmap Z string := {[ 0%Z := "negative"; 1%Z := "positive" ]}.

(** [sentences = ds["test"]["text"][:10]] *)
Definition sentences (test : datasets.Dataset) : list string :=
  take 10 (datasets.text <$> test).

(** [df_test = pd.DataFrame(ds["test"][:10])] *)
Definition df_test (test : datasets.Dataset) : datasets.Dataset := take 10 test.

(** An entry of a column: missing, an integer, a float or a string. *)
Inductive cell : Type :=
  | NaN
  | Int (z : Z)
  | Float (x : float)
  | Str (s : string).

(** [df_test["label"].replace([0, 1], ["negative", "positive"])] on one
    entry: other values stay as they are. *)
Definition replace (label : Z) : cell :=
  if decide (label = 0%Z) then Str "negative"
  else if decide (label = 1%Z) then Str "positive"
  else Int label.

(** Python's [==] between an integer and a float: the two numbers compared
    exactly. *)
Definition int_eq_float (z : Z) (x : float) : bool :=
  match Prim2SF x with
  | S754_zero _ => bool_decide (z = 0%Z)
  | S754_finite s m e =>
      let v := if s then Zneg m else Zpos m in
      if (0 <=? e)%Z then bool_decide (z = (v * 2 ^ e)%Z)
      else bool_decide ((z * 2 ^ (- e))%Z = v)
  | _ => false
  end.

(** [Series.eq] on one pair of entries: a missing entry equals nothing, a
    number equals no string, numbers and strings compare as Python's [==]
    does. *)
Definition eq (a b : cell) : bool :=
  match a, b with
  | Int x, Int y => bool_decide (x = y)
  | Float x, Float y => (x =? y)%float
  | Int z, Float x | Float x, Int z => int_eq_float z x
  | Str s, Str t => bool_decide (s = t)
  | _, _ => false
  end.

(** Whether [replace] left the label column a column of integers: no label
    of [df_test] is 0 or 1. *)
Definition int_labels (df_test : datasets.Dataset) : bool :=
  forallb (λ ex, bool_decide (datasets.label ex ≠ 0%Z ∧ datasets.label ex ≠ 1%Z))
    df_test.

(** Whether the label column reaches the frame as floats: a column of
    integers that [pd.concat] has to pad, the results outnumbering the rows
    of [df_test], becomes a column of floats. *)
Definition float_labels (df_test : datasets.Dataset) (results : list (string * float))
    : bool :=
  int_labels df_test && bool_decide (length df_test < length results).

(** Two frames with a [RangeIndex] side by side: rows paired by position,
    the shorter frame's missing rows left out. *)
Fixpoint align {A B} (a : list A) (b : list B) : list (option A * option B) :=
  match a, b with
  | [], _ => (λ y, (None, Some y)) <$> b
  | _, [] => (λ x, (Some x, None)) <$> a
  | x :: a, y :: b => (Some x, Some y) :: align a b
  end.

(** A row of [results_df] as the cell leaves it. *)
Record row : Type := Row {
  text : cell;
  label : cell;
  pred : cell;
  score : float;
  Correct : bool
}.

(** One joined row: the [text] and replaced [label] of [df_test] (the label
    as a float when [as_float] says the column became one), the [pred] and
    [score] of the pipeline result, missing sides filled with NaN, and
    [Correct]. *)
Definition join_row (as_float : bool)
    (sides : option datasets.example * option (string * float)) : row :=
  let text := from_option (λ ex, Str (datasets.text ex)) NaN sides.1 in
  let label :=
    from_option
      (λ ex, if as_float then Float (Float64.of_Z (datasets.label ex))
             else replace (datasets.label ex))
      NaN sides.1 in
  let pred := from_option (λ r, Str r.1) NaN sides.2 in
  let score := from_option (λ r, r.2) nan sides.2 in
  Row text label pred score (eq label pred).

(** The cell that builds [results_df] from [df_test] and the pipeline's
    [results] (a label and a score each). Renaming the two columns of the
    frame made from [results] raises when [results] is empty, the frame
    then having no column. *)
Definition results_df (df_test : datasets.Dataset) (results : list (string * float))
    : Py.result (list row) :=
  match results with
  | [] =>
      inl (Py.ValueError
             "Length mismatch: Expected axis has 0 elements, new values have 2 elements")
  | _ :: _ =>
      inr (join_row (float_labels df_test results) <$> align df_test results)
  end.

Section pipeline.

(** The baseline pipeline [nlp]: the external framework's classifier, from
    sentences to a label and a score each. *)
Variable nlp : list string → list (string * float).

(** The two cells in sequence, from the dataset to [results_df]. *)
Definition baseline_frame (ds : datasets.DatasetDict) : Py.result (list row) :=
  test ← Py.getitem ds "test";
  let results := nlp (sentences test) in
  results_df (df_test test) results.

End pipeline.

(** A scorer row seen as a row of the frame: all entries present. *)
Definition of_scorer (r : Scorer.row bool) : row :=
  Row (Str (Scorer.text r)) (Str (Scorer.label r)) (Str (Scorer.pred r))
      (Scorer.score r) (Scorer.Correct r).

End Baseline.

(** ** Further sample inputs *)

Module MoreSamples.

(** A pipeline that calls every sentence positive. *)
Definition always_positive (sentences : list string) : list (string * float) :=
  (λ _, ("positive", 0.5%float)) <$> sentences.

(** A dataset without a test partition. *)
Definition train_only (n : nat) : datasets.DatasetDict :=
  {[ "train" := Samples.reviews n ]}.

(** A sampler that fails as the framework's does on a class with a single
    member. *)
Definition failing_sampler (labels : list Z) (n_train n_test : nat) (generator : Z)
    : Py.result (list nat * list nat) :=
  inl (Py.ValueError "Minimum class count error").

(** A frame of four rows over two labels. *)
Definition frame : list (Scorer.row unit) :=
  Scorer.of_pairs [("pos", "pos"); ("neg", "pos"); ("neg", "neg"); ("neg", "neg")].

End MoreSamples.

(** * Properties *)

(** ** Environment check *)


(** ** Scorer: overall accuracy *)

Section filter_fmap.
Context {A B : Type} (f : A → B).
Context (P : B → Prop) `{!∀ y, Decision (P y)}.
Context (Q : A → Prop) `{!∀ x, Decision (Q x)}.

Lemma filter_fmap_iff (l : list A) :
  (∀ x, P (f x) ↔ Q x) → filter P (f <$> l) = f <$> filter Q l.
Proof.
  intros HPQ. induction l as [|x l IH]; [done|].
  rewrite fmap_cons, !filter_cons.
  destruct (decide (P (f x))) as [HP|HP], (decide (Q x)) as [HQ|HQ];
    rewrite ?fmap_cons, IH; try done; exfalso.
  - by apply HQ, HPQ.
  - by apply HP, HPQ.
Qed.

Lemma length_filter_fmap_iff (l : list A) :
  (∀ x, P (f x) ↔ Q x) → length (filter P (f <$> l)) = length (filter Q l).
Proof. intros HPQ. by rewrite filter_fmap_iff, length_fmap. Qed.
End filter_fmap.

Lemma set_Correct_length (results_df : list (Scorer.row unit)) :
  length (Scorer.set_Correct results_df) = length results_df.
Proof. unfold Scorer.set_Correct. by rewrite length_fmap. Qed.

Lemma correct_rows_length (results_df : list (Scorer.row unit)) :
  length (Scorer.correct_rows (Scorer.set_Correct results_df)) =
  length (filter (λ r, Scorer.pred r = Scorer.label r) results_df).
Proof.
  unfold Scorer.correct_rows, Scorer.set_Correct.
  apply length_filter_fmap_iff. intros r; simpl.
  rewrite bool_decide_eq_true. split; congruence.
Qed.

(** C1 (amended): for every frame of (predicted label, true label) rows the
    overall accuracy is the number of rows whose predicted label equals the
    true label divided by the number of rows, as Python's float quotient,
    when the frame has at least one row; on a frame with zero rows the
    division raises [ZeroDivisionError]. *)
Theorem accuracy_is_correct_over_total (results_df : list (Scorer.row unit)) :
  let correct := length (filter (λ r, Scorer.pred r = Scorer.label r) results_df) in
  let total := length results_df in
  Scorer.accuracy (Scorer.set_Correct results_df) =
    if decide (total = 0) then inl Py.ZeroDivisionError
    else inr (Float64.of_nat correct / Float64.of_nat total)%float.
Proof.
  intros correct total. unfold Scorer.accuracy.
  rewrite correct_rows_length, set_Correct_length.
  fold correct total. by destruct total.
Qed.

(** C1, the claim as stated fails on the empty frame: no accuracy is
    defined there, the cell ends in [ZeroDivisionError] and prints nothing. *)
Lemma accuracy_empty_raises :
  Scorer.accuracy (Scorer.set_Correct []) = inl Py.ZeroDivisionError ∧
  Scorer.accuracy_cell (Scorer.set_Correct []) = ([], inl Py.ZeroDivisionError) ∧
  ¬ ∃ a, Scorer.accuracy (Scorer.set_Correct []) = inr a.
Proof. split; [done|]. split; [done|]. by intros [a Ha]. Qed.

Lemma accuracy_example :
  Scorer.accuracy_cell (Scorer.set_Correct (Scorer.of_pairs Scorer.example_pairs)) =
    (["Accuracy : 0.67"], inr (Float64.of_nat 2 / Float64.of_nat 3)%float).
Proof. vm_compute. reflexivity. Qed.

(** ** Scorer: the per-label table *)

Lemma unique_elem_of (l : list string) (x : string) : x ∈ Scorer.unique l ↔ x ∈ l.
Proof.
  induction l as [|y l IH]; simpl; [done|].
  rewrite !elem_of_cons, list_elem_of_filter, IH.
  destruct (decide (x = y)); tauto.
Qed.

Lemma unique_NoDup (l : list string) : NoDup (Scorer.unique l).
Proof.
  induction l as [|y l IH]; simpl; [constructor|].
  apply NoDup_cons. split.
  - rewrite list_elem_of_filter. by intros [Hne _].
  - by apply NoDup_filter.
Qed.

Lemma fmap_fst_tagged {A} (f : string → A) (l : list string) :
  ((λ x, (x, f x)) <$> l).*1 = l.
Proof. rewrite <-list_fmap_compose. apply list_fmap_id. Qed.

Lemma at_index_elem_of {A} (k : string) (v : A) (series : list (string * A)) :
  NoDup series.*1 → (k, v) ∈ series → Scorer.at_index k series = Some v.
Proof.
  induction series as [|[k' v'] series IH]; simpl; intros Hnd Hin.
  - by apply elem_of_nil in Hin.
  - apply NoDup_cons in Hnd as [Hk' Hnd].
    apply elem_of_cons in Hin as [Heq|Hin].
    + injection Heq as -> ->. by rewrite decide_True.
    + rewrite decide_False; [by apply IH|].
      intros ->. apply Hk'. by apply (list_elem_of_fmap_2 fst) in Hin.
Qed.

Lemma filter_absent_nil (known more : list string) :
  (∀ k, k ∈ more → k ∈ known) → filter (λ k, k ∉ known) more = [].
Proof.
  intros Hsub. induction more as [|k more IH]; [done|].
  rewrite filter_cons, decide_False.
  - apply IH. intros k' Hk'. apply Hsub. by right.
  - intros Hk. apply Hk, Hsub. by left.
Qed.

Lemma insert_by_count_Permutation (x : string * nat) (l : list (string * nat)) :
  Scorer.insert_by_count x l ≡ₚ x :: l.
Proof.
  induction l as [|y l IH]; simpl; [done|].
  destruct (decide (Scorer.more_frequent x y)); [done|].
  by rewrite IH, Permutation_swap.
Qed.

Lemma sort_by_count_Permutation (l : list (string * nat)) :
  Scorer.sort_by_count l ≡ₚ l.
Proof.
  induction l as [|x l IH]; simpl; [done|].
  by rewrite insert_by_count_Permutation, IH.
Qed.

Lemma value_counts_keys (column : list string) :
  (Scorer.value_counts column).*1 ≡ₚ Scorer.unique column.
Proof.
  unfold Scorer.value_counts.
  rewrite sort_by_count_Permutation. by rewrite fmap_fst_tagged.
Qed.

Lemma value_counts_elem_of (column : list string) (k : string) :
  k ∈ column → (k, Scorer.occurrences k column) ∈ Scorer.value_counts column.
Proof.
  intros Hk. unfold Scorer.value_counts. rewrite sort_by_count_Permutation.
  apply (list_elem_of_fmap_2 (λ x, (x, Scorer.occurrences x column))).
  by apply unique_elem_of.
Qed.

Lemma groupby_keys (results_df : list (Scorer.row bool)) :
  (Scorer.groupby_label_Correct_mean results_df).*1 ≡ₚ
  Scorer.unique (Scorer.label <$> results_df).
Proof.
  unfold Scorer.groupby_label_Correct_mean.
  rewrite fmap_fst_tagged. apply merge_sort_Permutation.
Qed.

Lemma groupby_elem_of (results_df : list (Scorer.row bool)) (k : string) :
  k ∈ Scorer.label <$> results_df →
  (k, Scorer.mean (Scorer.Correct <$> Scorer.group k results_df))
    ∈ Scorer.groupby_label_Correct_mean results_df.
Proof.
  intros Hk. unfold Scorer.groupby_label_Correct_mean.
  apply (list_elem_of_fmap_2
           (λ k, (k, Scorer.mean (Scorer.Correct <$> Scorer.group k results_df)))).
  rewrite merge_sort_Permutation. by apply unique_elem_of.
Qed.

Lemma fmap_fst_prod_map {A B} (g : A → B) (l : list (string * A)) :
  (prod_map id g <$> l).*1 = l.*1.
Proof. rewrite <-list_fmap_compose. by apply list_fmap_ext; intros ? []. Qed.

(** The index of [accuracy_df] is that of [value_counts]: the group means
    bring no further key. *)
Lemma accuracy_df_Labels (results_df : list (Scorer.row bool)) :
  Scorer.Label <$> Scorer.accuracy_df results_df =
  (Scorer.value_counts (Scorer.label <$> results_df)).*1.
Proof.
  unfold Scorer.accuracy_df, Scorer.concat_axis1.
  rewrite filter_absent_nil, app_nil_r.
  - rewrite <-!list_fmap_compose.
    by apply list_fmap_ext.
  - intros k. rewrite fmap_fst_prod_map, groupby_keys, value_counts_keys. done.
Qed.

Lemma accuracy_df_Labels_perm (results_df : list (Scorer.row bool)) :
  Scorer.Label <$> Scorer.accuracy_df results_df ≡ₚ
  Scorer.unique (Scorer.label <$> results_df).
Proof. rewrite accuracy_df_Labels. apply value_counts_keys. Qed.

Lemma accuracy_df_NoDup (results_df : list (Scorer.row bool)) :
  NoDup (Scorer.Label <$> Scorer.accuracy_df results_df).
Proof. rewrite accuracy_df_Labels_perm. apply unique_NoDup. Qed.

Lemma accuracy_df_elem_of (results_df : list (Scorer.row bool)) (k : string) :
  k ∈ Scorer.label <$> results_df →
  Scorer.AccuracyRow k
    (Some (Scorer.occurrences k (Scorer.label <$> results_df)))
    (Some (Float64.round2
             (Scorer.mean (Scorer.Correct <$> Scorer.group k results_df) * 100)%float))
    ∈ Scorer.accuracy_df results_df.
Proof.
  intros Hk.
  assert (NoDup (Scorer.value_counts (Scorer.label <$> results_df)).*1) as Hnd1.
  { rewrite value_counts_keys. apply unique_NoDup. }
  assert (NoDup (prod_map id (λ m, Float64.round2 (m * 100)%float)
                   <$> Scorer.groupby_label_Correct_mean results_df).*1) as Hnd2.
  { rewrite fmap_fst_prod_map, groupby_keys. apply unique_NoDup. }
  unfold Scorer.accuracy_df, Scorer.concat_axis1.
  apply list_elem_of_fmap. eexists (k, (_, _)). split; [reflexivity|].
  apply list_elem_of_fmap. exists k. split.
  - f_equal. f_equal; symmetry.
    + apply at_index_elem_of; [done|]. by apply value_counts_elem_of.
    + apply at_index_elem_of; [done|].
      apply (list_elem_of_fmap_2 (prod_map id (λ m, Float64.round2 (m * 100)%float))
               _ (k, _)).
      by apply groupby_elem_of.
  - apply elem_of_app. left.
    rewrite value_counts_keys. by apply unique_elem_of.
Qed.

Lemma accuracy_of_elem_of (table : list Scorer.accuracy_row) (r : Scorer.accuracy_row) :
  NoDup (Scorer.Label <$> table) → r ∈ table →
  Scorer.accuracy_of (Scorer.Label r) table = Some r.
Proof.
  unfold Scorer.accuracy_of.
  induction table as [|r' table IH]; intros Hnd Hin.
  - by apply elem_of_nil in Hin.
  - rewrite fmap_cons in Hnd. apply NoDup_cons in Hnd as [Hr' Hnd].
    simpl. destruct (decide (Scorer.Label r' = Scorer.Label r)) as [Heq|Hne]; simpl.
    + apply elem_of_cons in Hin as [->|Hin]; [done|].
      exfalso. apply Hr'. rewrite Heq. by apply list_elem_of_fmap_2.
    + apply elem_of_cons in Hin as [->|Hin]; [done|].
      specialize (IH Hnd Hin).
      destruct (list_find _ table) as [[i x]|]; simpl in *; [done|discriminate].
Qed.

Lemma set_Correct_labels (results_df : list (Scorer.row unit)) :
  Scorer.label <$> Scorer.set_Correct results_df = Scorer.label <$> results_df.
Proof. unfold Scorer.set_Correct. rewrite <-list_fmap_compose. by apply list_fmap_ext. Qed.

Lemma occurrences_labels {C} (k : string) (results_df : list (Scorer.row C)) :
  Scorer.occurrences k (Scorer.label <$> results_df) =
  length (filter (λ r, Scorer.label r = k) results_df).
Proof. unfold Scorer.occurrences. by apply length_filter_fmap_iff. Qed.

Lemma group_set_Correct (k : string) (results_df : list (Scorer.row unit)) :
  Scorer.group k (Scorer.set_Correct results_df) =
  Scorer.set_Correct (filter (λ r, Scorer.label r = k) results_df).
Proof. unfold Scorer.group, Scorer.set_Correct. by apply filter_fmap_iff. Qed.

Lemma mean_Correct (rows : list (Scorer.row unit)) :
  Scorer.mean (Scorer.Correct <$> Scorer.set_Correct rows) =
  (Float64.of_nat (length (filter (λ r, Scorer.pred r = Scorer.label r) rows))
   / Float64.of_nat (length rows))%float.
Proof.
  unfold Scorer.mean. rewrite length_fmap, set_Correct_length. f_equal. f_equal.
  unfold Scorer.set_Correct. rewrite <-list_fmap_compose.
  apply length_filter_fmap_iff. intros r; simpl.
  rewrite bool_decide_eq_true. split; congruence.
Qed.

Lemma occurrences_pos (k : string) (column : list string) :
  k ∈ column → 0 < Scorer.occurrences k column.
Proof.
  intros Hk. unfold Scorer.occurrences.
  assert (k ∈ filter (λ y, y = k) column) as Hin by by apply list_elem_of_filter.
  destruct (filter _ column); [by apply elem_of_nil in Hin | simpl; lia].
Qed.

(** C2 (amended): for every frame and every label value [l] that occurs as a
    true label, the table has one entry for [l]; its count is the number of
    rows whose true label is [l], and its accuracy is the mean of the
    correctness flags over those rows, times 100 and rounded to two
    decimals (a percentage, not a fraction). *)
Theorem per_label_accuracy_is_percent_mean
    (results_df : list (Scorer.row unit)) (l : string) :
  l ∈ Scorer.label <$> results_df →
  let rows := filter (λ r, Scorer.label r = l) results_df in
  let correct := filter (λ r, Scorer.pred r = Scorer.label r) rows in
  Scorer.accuracy_of l (Scorer.accuracy_df (Scorer.set_Correct results_df)) =
    Some (Scorer.AccuracyRow l
            (Some (length rows))
            (Some (Float64.round2
                     (Float64.of_nat (length correct) / Float64.of_nat (length rows)
                      * 100)%float))).
Proof.
  intros Hl rows correct.
  rewrite <-set_Correct_labels in Hl.
  pose proof (accuracy_df_elem_of _ _ Hl) as Hin.
  rewrite group_set_Correct, mean_Correct, occurrences_labels in Hin.
  rewrite <-(length_fmap (λ r, r)), list_fmap_id in Hin.
  apply (accuracy_of_elem_of _ _ (accuracy_df_NoDup _)) in Hin. simpl in Hin.
  rewrite Hin. unfold Scorer.set_Correct.
  by rewrite (length_filter_fmap_iff _ _ (λ r, Scorer.label r = l)).
Qed.

Lemma per_label_accuracy_is_percent_mean_witness :
  "neg" ∈ Scorer.label <$> Scorer.of_pairs Scorer.example_pairs ∧
  Scorer.accuracy_of "neg"
    (Scorer.accuracy_df (Scorer.set_Correct (Scorer.of_pairs Scorer.example_pairs))) =
    Some (Scorer.AccuracyRow "neg" (Some 2) (Some 50%float)).
Proof.
  assert ("neg" ∈ Scorer.label <$> Scorer.of_pairs Scorer.example_pairs) as Hin.
  { simpl. repeat constructor. }
  split; [exact Hin|].
  exact (per_label_accuracy_is_percent_mean
           (Scorer.of_pairs Scorer.example_pairs) "neg" Hin).
Defined.

Lemma float_neq (x y : float) : Prim2SF x ≠ Prim2SF y → x ≠ y.
Proof. intros Hne ->. by apply Hne. Qed.

(** C2, the claim as stated fails on its own example: for the true/predicted
    pairs (pos,pos), (neg,pos), (neg,neg) the table holds 50.0 for "neg" and
    100.0 for "pos", not 0.50 and 1.00; read as (predicted, true) pairs the
    same rows give 100.0 for "neg" and 50.0 for "pos". *)
Lemma per_label_example_is_percent :
  let table :=
    Scorer.accuracy_df (Scorer.set_Correct (Scorer.of_pairs Scorer.example_pairs)) in
  let swapped :=
    Scorer.accuracy_df
      (Scorer.set_Correct (Scorer.of_pairs (prod_swap <$> Scorer.example_pairs))) in
  table = [Scorer.AccuracyRow "neg" (Some 2) (Some 50%float);
           Scorer.AccuracyRow "pos" (Some 1) (Some 100%float)] ∧
  swapped = [Scorer.AccuracyRow "pos" (Some 2) (Some 50%float);
             Scorer.AccuracyRow "neg" (Some 1) (Some 100%float)] ∧
  Scorer.Accuracy <$> Scorer.accuracy_of "neg" table ≠ Some (Some 0.5%float) ∧
  Scorer.Accuracy <$> Scorer.accuracy_of "pos" table ≠ Some (Some 1%float) ∧
  Scorer.Accuracy <$> Scorer.accuracy_of "neg" swapped ≠ Some (Some 0.5%float) ∧
  Scorer.Accuracy <$> Scorer.accuracy_of "pos" swapped ≠ Some (Some 1%float).
Proof.
  split; [by vm_compute|]. split; [by vm_compute|].
  repeat split; vm_compute; intros [= Heq]; revert Heq; by apply float_neq.
Qed.

(** C10: on every frame the per-label table has exactly one row per label
    value that occurs in the frame and none for a label that does not; each
    row carries the (positive) number of rows of its label and an accuracy
    value. The table is therefore defined on every frame: no group is
    empty, so no mean divides by zero. *)
Theorem accuracy_df_one_row_per_present_label (results_df : list (Scorer.row bool)) :
  NoDup (Scorer.Label <$> Scorer.accuracy_df results_df) ∧
  (∀ l, l ∈ Scorer.Label <$> Scorer.accuracy_df results_df ↔
        l ∈ Scorer.label <$> results_df) ∧
  Forall (λ r,
            ∃ n, 0 < n ∧ n = length (Scorer.group (Scorer.Label r) results_df) ∧
                 Scorer.Count r = Some n ∧
                 Scorer.Accuracy r =
                   Some (Float64.round2
                           (Scorer.mean (Scorer.Correct
                                           <$> Scorer.group (Scorer.Label r) results_df)
                            * 100)%float))
         (Scorer.accuracy_df results_df).
Proof.
  assert (∀ l, l ∈ Scorer.Label <$> Scorer.accuracy_df results_df ↔
               l ∈ Scorer.label <$> results_df) as Hiff.
  { intros l. by rewrite accuracy_df_Labels_perm, unique_elem_of. }
  split; [apply accuracy_df_NoDup|]. split; [exact Hiff|].
  apply Forall_forall. intros r Hr.
  assert (Scorer.Label r ∈ Scorer.label <$> results_df) as Hl.
  { apply Hiff. by apply list_elem_of_fmap_2. }
  pose proof (accuracy_df_elem_of _ _ Hl) as Hin.
  apply (accuracy_of_elem_of _ _ (accuracy_df_NoDup _)) in Hin. simpl in Hin.
  rewrite (accuracy_of_elem_of _ _ (accuracy_df_NoDup _) Hr) in Hin.
  injection Hin as ->. simpl.
  exists (Scorer.occurrences (Scorer.Label r) (Scorer.label <$> results_df)).
  split; [by apply occurrences_pos|].
  split; [apply occurrences_labels|]. done.
Qed.

(** ** Fine-tuning configuration *)

(** C3 (amended): the training run is configured, at construction, with a
    learning rate, per-device train and eval batch sizes, an epoch count, a
    weight-decay coefficient, a steps-based evaluate and save cadence, a cap
    on retained checkpoints, F1 (computed with weighted averaging) as the
    model-selection metric and the reloading of the best checkpoint at the
    end; the train and validation splits are the datasets. No callback is
    passed to the trainer, so no early-stopping policy is configured. *)
Theorem training_configuration {Model Metrics : Type}
    (evaluate_load : string → list Z → list Z → string → Metrics)
    (argmax_axis1 : list (list float) → list Z)
    (model : Model) (tokenizer : transformers.Tokenizer)
    (ds : datasets.DatasetDict) (train validation : datasets.Dataset) :
  ds !! "train" = Some train →
  ds !! "validation" = Some validation →
  ∃ t, Training.trainer evaluate_load argmax_axis1 model tokenizer ds = inr t ∧
       Training.train_dataset t = train ∧
       Training.eval_dataset t = validation ∧
       Training.learning_rate (Training.trainer_args t) = 0.00001%float ∧
       Training.per_device_train_batch_size (Training.trainer_args t) = 32%Z ∧
       Training.per_device_eval_batch_size (Training.trainer_args t) = 32%Z ∧
       Training.num_train_epochs (Training.trainer_args t) = 1%Z ∧
       Training.weight_decay (Training.trainer_args t) = 0.01%float ∧
       Training.evaluation_strategy (Training.trainer_args t) = Training.steps ∧
       Training.save_strategy (Training.trainer_args t) = Training.steps ∧
       Training.save_total_limit (Training.trainer_args t) = 2%Z ∧
       Training.metric_for_best_model (Training.trainer_args t) = "f1" ∧
       (∀ eval_pred,
          Training.compute_metrics t eval_pred =
          evaluate_load "f1" (argmax_axis1 eval_pred.1) eval_pred.2 "weighted") ∧
       Training.load_best_model_at_end (Training.trainer_args t) = true ∧
       Training.callbacks t = None ∧
       ¬ Training.has_early_stopping t.
Proof.
  intros Htrain Hval. eexists. split.
  - unfold Training.trainer, Py.getitem. rewrite Htrain, Hval. reflexivity.
  - repeat split. intros [patience Hin]. simpl in Hin.
    by apply elem_of_nil in Hin.
Qed.

Lemma training_configuration_witness :
  ∃ t, Training.trainer (Model := unit) (λ _ _ _ _, tt) (λ _, []) tt
         Samples.char_tokenizer
         (<["validation" := Samples.reviews 1]> (Samples.dataset 9)) = inr t ∧
       Training.callbacks t = None.
Proof.
  destruct (training_configuration (Model := unit) (λ _ _ _ _, tt) (λ _, []) tt
              Samples.char_tokenizer
              (<["validation" := Samples.reviews 1]> (Samples.dataset 9))
              (Samples.reviews 9) (Samples.reviews 1))
    as (t & Ht & H); [by vm_compute | by vm_compute |].
  exists t. split; [exact Ht|]. apply H.
Defined.

(** C3, the claim as stated fails: the trainer the cell builds has no
    early-stopping policy ([EarlyStoppingCallback] is imported but never
    passed to [Trainer]). *)
Lemma no_early_stopping_configured :
  ∃ t, Training.trainer (Model := unit) (λ _ _ _ _, tt) (λ _, []) tt
         Samples.char_tokenizer
         (<["validation" := Samples.reviews 1]> (Samples.dataset 9)) = inr t ∧
       Training.callbacks t = None ∧
       ¬ Training.has_early_stopping t.
Proof.
  eexists. split; [by vm_compute|]. split; [done|].
  intros [patience Hin]. simpl in Hin. by apply elem_of_nil in Hin.
Qed.

(** ** Dataset split *)

Lemma select_in_range (self : datasets.Dataset) (indices : list nat) :
  Forall (λ i, i < length self) indices →
  datasets.select self indices = inr ((λ i, self !!! i) <$> indices).
Proof.
  intros Hlt. unfold datasets.select.
  replace (mapM (λ i, self !! i) indices) with (Some ((λ i, self !!! i) <$> indices));
    [done|].
  symmetry. apply mapM_Some. apply Forall2_fmap_r, Forall_Forall2_diag.
  eapply Forall_impl; [exact Hlt|]. intros i Hi. simpl.
  by apply list_lookup_lookup_total_lt.
Qed.

Lemma select_all (self : datasets.Dataset) :
  (λ i, self !!! i) <$> seq 0 (length self) = self.
Proof.
  apply list_eq. intros i. rewrite list_lookup_fmap.
  destruct (decide (i < length self)) as [Hlt|Hge].
  - rewrite lookup_seq_lt by done. simpl.
    by rewrite list_lookup_lookup_total_lt.
  - rewrite (lookup_ge_None_2 self) by lia.
    by rewrite (lookup_ge_None_2 (seq 0 (length self))) by (rewrite length_seq; lia).
Qed.

(** Positions drawn without repetition below [n], [n] of them in all, are
    all the positions. *)
Lemma is_split_all_positions (n n_train n_test : nat) (indices : list nat * list nat) :
  datasets.is_split n n_train n_test indices → n_train + n_test = n →
  indices.1 ++ indices.2 ≡ₚ seq 0 n.
Proof.
  intros (Hlen1 & Hlen2 & Hnd & Hlt) Hsum.
  apply submseteq_length_Permutation.
  - apply NoDup_submseteq; [done|]. intros i Hi.
    apply elem_of_seq. rewrite Forall_forall in Hlt. specialize (Hlt i Hi). lia.
  - rewrite length_seq, length_app. lia.
Qed.

Lemma test_size_cell_in_range : negb ((0 <? 0.1)%float && (0.1 <? 1)%float) = false.
Proof. reflexivity. Qed.

Lemma getitem_Some {V} (d : gmap string V) (k : string) (v : V) :
  d !! k = Some v → Py.getitem d k = inr v.
Proof. intros H. unfold Py.getitem. by rewrite H. Qed.

Lemma bind_lift_inr {A B} (a : A) (k : A → Py.py B) : Py.lift (inr a) ≫= k = k a.
Proof. unfold Py.lift, mbind, Py.py_bind. by destruct (k a). Qed.

Lemma bind_print {B} (line : string) (k : unit → Py.py B) :
  Py.print line ≫= k = (line :: Py.stdout (k tt), Py.outcome (k tt)).
Proof. unfold Py.print, mbind, Py.py_bind. by destruct (k tt). Qed.

Lemma result_bind_inr {A B} (a : A) (k : A → Py.result B) :
  (inr a : Py.result A) ≫= k = k a.
Proof. reflexivity. Qed.

Lemma result_ret_inr {A} (a : A) : (mret a : Py.result A) = inr a.
Proof. reflexivity. Qed.

(** One step of a cell: a dictionary read that succeeds. *)
Ltac py_getitem k v :=
  rewrite (getitem_Some _ k v), bind_lift_inr by by simplify_map_eq.

(** The framework's call past its checks: on a dataset that leaves rows for
    train, the outcome is the sampler's draw. *)
Lemma train_test_split_draw {Generator : Type} (default_rng : Z → Generator)
    (stratified_shuffle_split :
       list Z → nat → nat → Generator → Py.result (list nat * list nat))
    (self : datasets.Dataset) (test_size : float) (seed global_seed : Z) :
  let n_test :=
    Z.to_nat (Float64.ceil (test_size * Float64.of_nat (length self))%float) in
  let n_train := length self - n_test in
  negb ((0 <? test_size)%float && (test_size <? 1)%float) = false →
  n_train ≠ 0 →
  datasets.train_test_split default_rng stratified_shuffle_split
    self test_size (Some seed) global_seed =
  match stratified_shuffle_split (datasets.label <$> self) n_train n_test
          (default_rng seed) with
  | inl error => inl (datasets.stratify_error error)
  | inr indices =>
      train_split ← datasets.select self indices.1;
      test_split ← datasets.select self indices.2;
      mret ({[ "train" := train_split; "test" := test_split ]} : datasets.DatasetDict)
  end.
Proof.
  intros n_test n_train Hrange Hn. unfold datasets.train_test_split.
  rewrite decide_False by (unfold n_train in Hn; lia).
  rewrite Hrange. fold n_test. fold n_train.
  by rewrite decide_False by done.
Qed.

Section split.
Context {Generator : Type}.
Variable default_rng : Z → Generator.
Variable stratified_shuffle_split :
  list Z → nat → nat → Generator → Py.result (list nat * list nat).

(** The run of the split cell when the sampler delivers a split. *)
Lemma split_with_run (test_size : float) (seed global_seed : Z)
    (ds : datasets.DatasetDict) (train test : datasets.Dataset)
    (indices : list nat * list nat) :
  let n_test :=
    Z.to_nat (Float64.ceil (test_size * Float64.of_nat (length train))%float) in
  let n_train := length train - n_test in
  negb ((0 <? test_size)%float && (test_size <? 1)%float) = false →
  ds !! "train" = Some train →
  ds !! "test" = Some test →
  n_train ≠ 0 →
  stratified_shuffle_split (datasets.label <$> train) n_train n_test
    (default_rng seed) = inr indices →
  datasets.is_split (length train) n_train n_test indices →
  let new_train := (λ i, train !!! i) <$> indices.1 in
  let validation := (λ i, train !!! i) <$> indices.2 in
  datasets.split_with default_rng stratified_shuffle_split
    test_size seed global_seed ds =
    (["Samples in train      : " ++ pretty n_train;
      "Samples in validation : " ++ pretty n_test;
      "Samples in test       : " ++ pretty (length test)],
     inr (<["validation" := validation]> (<["train" := new_train]> ds))).
Proof.
  intros n_test n_train Hrange Htrain Htest Hn Hsample Hsplit new_train validation.
  destruct Hsplit as (Hlen1 & Hlen2 & Hnd & Hlt).
  apply Forall_app in Hlt as [Hlt1 Hlt2].
  unfold datasets.split_with.
  rewrite (getitem_Some _ _ _ Htrain), bind_lift_inr.
  rewrite train_test_split_draw by done. fold n_test. fold n_train.
  rewrite Hsample.
  rewrite !select_in_range by done. rewrite !result_bind_inr.
  fold new_train validation.
  rewrite result_ret_inr, bind_lift_inr.
  py_getitem "train" new_train.
  py_getitem "test" validation.
  py_getitem "train" new_train.
  rewrite bind_print.
  py_getitem "validation" validation.
  rewrite bind_print.
  py_getitem "test" test.
  rewrite bind_print. simpl.
  unfold new_train, validation. rewrite !length_fmap, Hlen1, Hlen2.
  reflexivity.
Qed.
End split.

(** The sample sampler delivers a split for any two sizes. *)
Lemma head_sampler_is_split (n_train n_test : nat) :
  datasets.is_split (n_train + n_test) n_train n_test (seq n_test n_train, seq 0 n_test).
Proof.
  unfold datasets.is_split; simpl. rewrite !length_seq.
  split; [done|]. split; [done|]. split.
  - apply NoDup_app. split; [apply NoDup_seq|]. split; [|apply NoDup_seq].
    intros i. rewrite !elem_of_seq. lia.
  - apply Forall_app. split; apply Forall_seq; lia.
Qed.

Lemma n_test_1000 :
  Z.to_nat (Float64.ceil (0.1 * Float64.of_nat 1000)%float) = 100.
Proof. reflexivity. Qed.

(** C4: after the split cell, on a dataset with a train and a test
    partition and a sampler that delivers a split: the new train and the
    validation partitions are the rows of the original train partition at two
    lists of positions that share no position and together are exactly all
    its positions, so that validation and new train together are the original
    train partition; the test partition is the original one. *)
Theorem split_partitions_train_and_keeps_test {Generator : Type}
    (default_rng : Z → Generator)
    (stratified_shuffle_split :
       list Z → nat → nat → Generator → Py.result (list nat * list nat))
    (global_seed : Z) (ds : datasets.DatasetDict)
    (train test : datasets.Dataset) (indices : list nat * list nat) :
  let n_test := Z.to_nat (Float64.ceil (0.1 * Float64.of_nat (length train))%float) in
  let n_train := length train - n_test in
  ds !! "train" = Some train →
  ds !! "test" = Some test →
  n_train ≠ 0 →
  stratified_shuffle_split (datasets.label <$> train) n_train n_test (default_rng 42%Z)
    = inr indices →
  datasets.is_split (length train) n_train n_test indices →
  ∃ out ds' new_train validation,
    datasets.split_cell default_rng stratified_shuffle_split global_seed ds
      = (out, inr ds') ∧
    ds' !! "train" = Some new_train ∧
    ds' !! "validation" = Some validation ∧
    ds' !! "test" = Some test ∧
    datasets.select train indices.1 = inr new_train ∧
    datasets.select train indices.2 = inr validation ∧
    (∀ i, i ∈ indices.2 → i ∉ indices.1) ∧
    indices.1 ++ indices.2 ≡ₚ seq 0 (length train) ∧
    new_train ++ validation ≡ₚ train.
Proof.
  intros n_test n_train Htrain Htest Hn Hsample Hsplit.
  pose proof (split_with_run default_rng stratified_shuffle_split 0.1 42%Z global_seed
                ds train test indices test_size_cell_in_range
                Htrain Htest Hn Hsample Hsplit) as Hrun.
  assert (indices.1 ++ indices.2 ≡ₚ seq 0 (length train)) as Hall.
  { apply (is_split_all_positions _ n_train n_test); [done|]. unfold n_train in *. lia. }
  destruct Hsplit as (Hlen1 & Hlen2 & Hnd & Hlt).
  apply Forall_app in Hlt as [Hlt1 Hlt2].
  eexists _, _, _, _. split; [exact Hrun|].
  split; [by simplify_map_eq|]. split; [by simplify_map_eq|].
  split; [by simplify_map_eq|].
  split; [by apply select_in_range|]. split; [by apply select_in_range|].
  split.
  { apply NoDup_app in Hnd as (_ & Hdisj & _). intros i Hi2 Hi1. by apply (Hdisj i). }
  split; [exact Hall|].
  rewrite <-fmap_app, Hall. by rewrite select_all.
Qed.

Lemma split_partitions_train_and_keeps_test_witness :
  ∃ out ds',
    datasets.split_cell (λ seed, seed) Samples.head_sampler 7%Z (Samples.dataset 10)
      = (out, inr ds') ∧
    ds' !! "test" = Some (Samples.reviews 2).
Proof.
  destruct (split_partitions_train_and_keeps_test
              (λ seed, seed) Samples.head_sampler 7%Z (Samples.dataset 10)
              (Samples.reviews 10) (Samples.reviews 2) (seq 1 9, seq 0 1))
    as (out & ds' & new_train & validation & Hrun & _ & _ & Htest & _).
  - by vm_compute.
  - by vm_compute.
  - by vm_compute.
  - reflexivity.
  - apply (bool_decide_unpack _). by vm_compute.
  - exists out, ds'. by split.
Defined.

(** C7: the cell splits with the fixed constants [test_size=0.1] (the rest,
    0.9, stays in train) and [seed=42]; on a train partition of 1000 rows,
    with a sampler that delivers a split, the validation partition has
    exactly 100 rows and the new train partition 900. *)
Theorem split_1000_rows_gives_100_validation {Generator : Type}
    (default_rng : Z → Generator)
    (stratified_shuffle_split :
       list Z → nat → nat → Generator → Py.result (list nat * list nat))
    (global_seed : Z) (ds : datasets.DatasetDict)
    (train test : datasets.Dataset) (indices : list nat * list nat) :
  ds !! "train" = Some train →
  ds !! "test" = Some test →
  length train = 1000 →
  stratified_shuffle_split (datasets.label <$> train) 900 100 (default_rng 42%Z)
    = inr indices →
  datasets.is_split 1000 900 100 indices →
  datasets.split_cell default_rng stratified_shuffle_split
    = datasets.split_with default_rng stratified_shuffle_split 0.1 42%Z ∧
  ∃ ds' new_train validation,
    datasets.split_cell default_rng stratified_shuffle_split global_seed ds
      = (["Samples in train      : 900";
          "Samples in validation : 100";
          "Samples in test       : " ++ pretty (length test)],
         inr ds') ∧
    ds' !! "train" = Some new_train ∧
    ds' !! "validation" = Some validation ∧
    length validation = 100 ∧
    length new_train = 900.
Proof.
  intros Htrain Htest Hlen Hsample Hsplit. split; [reflexivity|].
  pose proof (split_with_run default_rng stratified_shuffle_split 0.1 42%Z global_seed
                ds train test indices test_size_cell_in_range Htrain Htest) as Hrun.
  rewrite Hlen, n_test_1000 in Hrun. simpl Nat.sub in Hrun.
  specialize (Hrun ltac:(done) Hsample Hsplit).
  destruct Hsplit as (Hlen1 & Hlen2 & _).
  eexists _, _, _. split; [exact Hrun|].
  split; [by simplify_map_eq|]. split; [by simplify_map_eq|].
  by rewrite !length_fmap.
Qed.

Lemma split_1000_rows_gives_100_validation_witness :
  ∃ ds' validation,
    Py.outcome
      (datasets.split_cell (λ seed, seed) Samples.head_sampler 7%Z (Samples.dataset 1000))
      = inr ds' ∧
    ds' !! "validation" = Some validation ∧
    length validation = 100.
Proof.
  destruct (split_1000_rows_gives_100_validation
              (λ seed, seed) Samples.head_sampler 7%Z (Samples.dataset 1000)
              (Samples.reviews 1000) (Samples.reviews 2) (seq 100 900, seq 0 100))
    as (_ & ds' & new_train & validation & Hrun & _ & Hval & Hlen & _).
  - by vm_compute.
  - by vm_compute.
  - by vm_compute.
  - reflexivity.
  - exact (head_sampler_is_split 900 100).
  - exists ds', validation. rewrite Hrun. by repeat split.
Defined.

(** ** Tokenization *)

Lemma call_truncated_length (tokenizer : transformers.Tokenizer) (text : string)
    (max_length : nat) :
  (2 ≤ max_length)%nat →
  length (transformers.input_ids
            (transformers.call tokenizer text true transformers.DO_NOT_PAD max_length))
  = 2 + length (transformers.tokenize tokenizer text) `min` (max_length - 2).
Proof.
  intros Hmax. unfold transformers.call, transformers.num_special_tokens; simpl.
  rewrite app_nil_r, length_app, length_take. simpl. lia.
Qed.

(** C6: for every tokenizer and every row (whatever its text: empty, or far
    longer than the maximum), the row produced by the tokenization mapper
    carries the ids of the text's first 510 tokens between the two special
    tokens, so at most 512 ids, and an attention mask of ones only: nothing
    is padded. *)
Theorem tokenized_length_at_most_512
    (tokenizer : transformers.Tokenizer) (examples : datasets.example) :
  let tokens := transformers.tokenize tokenizer (datasets.text examples) in
  let record :=
    datasets.update (Tokenization.preprocess_function tokenizer) examples in
  ∃ ids,
    datasets.input_ids record = Some ids ∧
    datasets.attention_mask record = Some (replicate (length ids) 1%Z) ∧
    ids = transformers.cls_token_id tokenizer
            :: take 510 tokens ++ [transformers.sep_token_id tokenizer] ∧
    length ids = 2 + length tokens `min` 510 ∧
    (length ids ≤ 512)%nat.
Proof.
  intros tokens record. eexists. split; [reflexivity|].
  pose proof (call_truncated_length tokenizer (datasets.text examples) 512
                ltac:(lia)) as Hlen.
  unfold record, datasets.update, Tokenization.preprocess_function.
  unfold transformers.call, transformers.num_special_tokens in *.
  simpl in *. rewrite !app_nil_r in *. fold tokens in Hlen |- *.
  split; [done|]. split; [done|]. simpl. split; lia.
Qed.

(** The two boundary cases, with one token per character: the empty text
    gives the two special tokens alone; a text of 2000 characters gives 512
    ids. *)
Lemma tokenized_empty_text :
  transformers.input_ids
    (Tokenization.preprocess_function Samples.char_tokenizer (Samples.review 0 ""))
  = [101; 102]%Z.
Proof. reflexivity. Qed.

Lemma tokenized_long_text :
  length (transformers.input_ids
            (Tokenization.preprocess_function Samples.char_tokenizer
               (Samples.review 1 Samples.long_text)))
  = 512.
Proof. by vm_compute. Qed.


(** * Further properties *)

(** ** Scorer: the shape of the per-label table *)

(** The table row by row: one row per entry of [value_counts], carrying
    that entry's count and the rounded percentage of its group. *)
Lemma accuracy_df_rows (results_df : list (Scorer.row bool)) :
  Scorer.accuracy_df results_df =
  (λ p, Scorer.AccuracyRow p.1 (Some p.2)
          (Some (Float64.round2
                   (Scorer.mean (Scorer.Correct <$> Scorer.group p.1 results_df)
                    * 100)%float)))
    <$> Scorer.value_counts (Scorer.label <$> results_df).
Proof.
  assert (NoDup (Scorer.value_counts (Scorer.label <$> results_df)).*1) as Hnd1.
  { rewrite value_counts_keys. apply unique_NoDup. }
  assert (NoDup (prod_map id (λ m, Float64.round2 (m * 100)%float)
                   <$> Scorer.groupby_label_Correct_mean results_df).*1) as Hnd2.
  { rewrite fmap_fst_prod_map, groupby_keys. apply unique_NoDup. }
  unfold Scorer.accuracy_df, Scorer.concat_axis1.
  rewrite filter_absent_nil, app_nil_r.
  2:{ intros k. by rewrite fmap_fst_prod_map, groupby_keys, value_counts_keys. }
  rewrite <-!list_fmap_compose. apply list_fmap_ext. intros i [k n] Hi. simpl.
  apply list_elem_of_lookup_2 in Hi.
  assert (k ∈ Scorer.label <$> results_df) as Hk.
  { apply unique_elem_of. rewrite <-value_counts_keys.
    by apply (list_elem_of_fmap_2 fst) in Hi. }
  f_equal.
  - by apply at_index_elem_of.
  - apply at_index_elem_of; [done|].
    apply (list_elem_of_fmap_2 (prod_map id (λ m, Float64.round2 (m * 100)%float))
             _ (k, _)).
    by apply groupby_elem_of.
Qed.

Lemma sum_list_with_fmap {A B} (f : B → nat) (g : A → B) (l : list A) :
  sum_list_with f (g <$> l) = sum_list_with (f ∘ g) l.
Proof. induction l as [|x l IH]; [done|]. csimpl. by rewrite IH. Qed.

Lemma sum_list_with_ext {A} (f g : A → nat) (l : list A) :
  (∀ x, f x = g x) → sum_list_with f l = sum_list_with g l.
Proof. intros Hfg. induction l as [|x l IH]; simpl; [done|]. by rewrite Hfg, IH. Qed.

Lemma sum_indicator (keys : list string) (x : string) :
  NoDup keys → x ∈ keys →
  sum_list_with (λ k, if decide (x = k) then 1 else 0) keys = 1.
Proof.
  induction keys as [|k keys IH]; intros Hnd Hin.
  - by apply elem_of_nil in Hin.
  - apply NoDup_cons in Hnd as [Hk Hnd]. simpl.
    destruct (decide (x = k)) as [->|Hne].
    + assert (sum_list_with (λ k', if decide (k = k') then 1 else 0) keys = 0) as ->; [|done].
      clear IH Hin Hnd. induction keys as [|k' keys IH]; simpl; [done|].
      apply not_elem_of_cons in Hk as [Hne Hk].
      rewrite decide_False by done. by apply IH.
    + apply elem_of_cons in Hin as [?|Hin]; [done|]. by rewrite IH.
Qed.

(** Counting a column key by key counts every entry once. *)
Lemma occurrences_add_up (keys column : list string) :
  NoDup keys → (∀ x, x ∈ column → x ∈ keys) →
  sum_list_with (λ k, Scorer.occurrences k column) keys = length column.
Proof.
  intros Hnd. induction column as [|x column IH]; intros Hin.
  - unfold Scorer.occurrences. simpl. clear Hnd Hin.
    induction keys as [|k keys IHk]; simpl; done.
  - transitivity (sum_list_with (λ k, if decide (x = k) then 1 else 0) keys
                  + sum_list_with (λ k, Scorer.occurrences k column) keys).
    + clear IH Hin Hnd. unfold Scorer.occurrences.
      induction keys as [|k keys IHk]; simpl; [done|].
      rewrite IHk, filter_cons.
      destruct (decide (x = k)); simpl; lia.
    + rewrite sum_indicator; [|done|apply Hin; by left].
      rewrite IH; [done|]. intros y Hy. apply Hin. by right.
Qed.

Lemma correct_rows_group (k : string) (results_df : list (Scorer.row bool)) :
  length (Scorer.correct_rows (Scorer.group k results_df)) =
  Scorer.occurrences k (Scorer.label <$> Scorer.correct_rows results_df).
Proof.
  rewrite occurrences_labels. unfold Scorer.correct_rows, Scorer.group.
  f_equal. rewrite !list_filter_filter. apply list_filter_iff. tauto.
Qed.

(** X1: the counts of the per-label table add up to the number of rows of
    the frame, and the numbers of correct rows of its groups add up to the
    number of correct rows: the table accounts for every row exactly once. *)
Theorem accuracy_df_accounts_for_every_row (results_df : list (Scorer.row bool)) :
  sum_list_with (λ r, default 0 (Scorer.Count r)) (Scorer.accuracy_df results_df)
    = length results_df ∧
  sum_list_with
    (λ r, length (Scorer.correct_rows (Scorer.group (Scorer.Label r) results_df)))
    (Scorer.accuracy_df results_df)
    = length (Scorer.correct_rows results_df).
Proof.
  rewrite accuracy_df_rows, !sum_list_with_fmap. unfold Scorer.value_counts.
  rewrite !sort_by_count_Permutation, !sum_list_with_fmap. split.
  - rewrite (sum_list_with_ext _
               (λ k, Scorer.occurrences k (Scorer.label <$> results_df))) by done.
    rewrite (occurrences_add_up _ _ (unique_NoDup _)), length_fmap; [done|].
    intros x. by rewrite unique_elem_of.
  - rewrite (sum_list_with_ext _
               (λ k, Scorer.occurrences k
                       (Scorer.label <$> Scorer.correct_rows results_df))).
    2:{ intros k. apply correct_rows_group. }
    rewrite (occurrences_add_up _ _ (unique_NoDup _)), length_fmap; [done|].
    intros x Hx. apply unique_elem_of.
    apply list_elem_of_fmap in Hx as (r & -> & Hr).
    apply list_elem_of_fmap_2. unfold Scorer.correct_rows in Hr.
    by apply list_elem_of_filter in Hr as [_ Hr].
Qed.

Lemma insert_by_count_sorted (x : string * nat) (l : list (string * nat)) :
  StronglySorted Scorer.more_frequent l →
  StronglySorted Scorer.more_frequent (Scorer.insert_by_count x l).
Proof.
  induction 1 as [|y l Hsorted IH Hy]; simpl; [by repeat constructor|].
  destruct (decide (Scorer.more_frequent x y)) as [Hxy|Hxy].
  - constructor; [by constructor|]. constructor; [done|].
    eapply Forall_impl; [exact Hy|]. intros z Hyz.
    unfold Scorer.more_frequent in *. lia.
  - constructor; [done|]. rewrite insert_by_count_Permutation.
    constructor; [|done]. unfold Scorer.more_frequent in *. lia.
Qed.

Lemma sort_by_count_sorted (l : list (string * nat)) :
  StronglySorted Scorer.more_frequent (Scorer.sort_by_count l).
Proof.
  induction l as [|x l IH]; simpl; [constructor|]. by apply insert_by_count_sorted.
Qed.

(** X2: the rows of the per-label table come in the order of their counts,
    every row having at least the count of each row after it. *)
Theorem accuracy_df_sorted_by_count (results_df : list (Scorer.row bool)) :
  StronglySorted
    (λ r1 r2, (default 0 (Scorer.Count r2) ≤ default 0 (Scorer.Count r1))%nat)
    (Scorer.accuracy_df results_df).
Proof.
  rewrite accuracy_df_rows.
  eapply StronglySorted_fmap; [|apply sort_by_count_sorted].
  intros a b Hab. exact Hab.
Qed.

Lemma unique_Permutation (l l' : list string) :
  l ≡ₚ l' → Scorer.unique l ≡ₚ Scorer.unique l'.
Proof.
  intros Hperm. apply NoDup_Permutation; [apply unique_NoDup..|].
  intros x. by rewrite !unique_elem_of, Hperm.
Qed.

Lemma length_filter_Permutation {A} (P : A → Prop) `{!∀ x, Decision (P x)}
    (l l' : list A) :
  l ≡ₚ l' → length (filter P l) = length (filter P l').
Proof. intros Hperm. by rewrite Hperm. Qed.

Lemma accuracy_df_row_Permutation (results_df results_df' : list (Scorer.row bool))
    (k : string) :
  results_df ≡ₚ results_df' →
  Scorer.occurrences k (Scorer.label <$> results_df)
    = Scorer.occurrences k (Scorer.label <$> results_df') ∧
  Scorer.mean (Scorer.Correct <$> Scorer.group k results_df)
    = Scorer.mean (Scorer.Correct <$> Scorer.group k results_df').
Proof.
  intros Hperm. split.
  - unfold Scorer.occurrences. apply length_filter_Permutation. by rewrite Hperm.
  - unfold Scorer.mean, Scorer.group. f_equal; f_equal.
    + apply length_filter_Permutation. by rewrite Hperm.
    + rewrite !length_fmap. by apply length_filter_Permutation.
Qed.

(** X3: the scores do not depend on the order of the rows: two frames with
    the same rows in another order have the same overall accuracy (or both
    raise) and per-label tables with the same rows. *)
Theorem scores_ignore_row_order (results_df results_df' : list (Scorer.row bool)) :
  results_df ≡ₚ results_df' →
  Scorer.accuracy results_df = Scorer.accuracy results_df' ∧
  Scorer.accuracy_df results_df ≡ₚ Scorer.accuracy_df results_df'.
Proof.
  intros Hperm. split.
  - unfold Scorer.accuracy, Scorer.correct_rows.
    rewrite (length_filter_Permutation _ _ _ Hperm), (Permutation_length Hperm).
    done.
  - rewrite !accuracy_df_rows. unfold Scorer.value_counts.
    rewrite !sort_by_count_Permutation, <-!list_fmap_compose.
    rewrite (unique_Permutation _ (Scorer.label <$> results_df')) by by rewrite Hperm.
    match goal with |- ?t ≡ₚ ?t' => assert (t = t') as ->; [|done] end.
    apply list_fmap_ext. intros i k _. simpl.
    destruct (accuracy_df_row_Permutation _ _ k Hperm) as [-> ->]. done.
Qed.

Lemma scores_ignore_row_order_witness :
  Scorer.accuracy_df (Scorer.set_Correct MoreSamples.frame) ≡ₚ
  Scorer.accuracy_df (Scorer.set_Correct (reverse MoreSamples.frame)).
Proof.
  apply (scores_ignore_row_order
           (Scorer.set_Correct MoreSamples.frame)
           (Scorer.set_Correct (reverse MoreSamples.frame))).
  unfold Scorer.set_Correct. rewrite fmap_reverse. symmetry. apply reverse_Permutation.
Defined.

Lemma singleton_of_NoDup (keys : list string) (l : string) :
  NoDup keys → (∀ k, k ∈ keys → k = l) → l ∈ keys → keys = [l].
Proof.
  intros Hnd Hall Hin. destruct keys as [|k keys]; [by apply elem_of_nil in Hin|].
  assert (k = l) as -> by (apply Hall; by left).
  destruct keys as [|k' keys]; [done|].
  assert (k' = l) as -> by (apply Hall; right; by left).
  apply NoDup_cons in Hnd as [Hnot _]. exfalso. apply Hnot. by left.
Qed.

(** X4: on a frame with at least one row whose rows all carry the same true
    label, the per-label table is a single row for that label, counting all
    rows, and its accuracy is the overall accuracy times 100, rounded to
    two decimals. *)
Theorem single_label_table_is_overall_accuracy
    (results_df : list (Scorer.row bool)) (l : string) :
  results_df ≠ [] →
  (∀ r, r ∈ results_df → Scorer.label r = l) →
  ∃ a, Scorer.accuracy results_df = inr a ∧
       Scorer.accuracy_df results_df =
         [Scorer.AccuracyRow l (Some (length results_df))
            (Some (Float64.round2 (a * 100)%float))].
Proof.
  intros Hne Hall.
  assert (Scorer.group l results_df = results_df) as Hgroup.
  { unfold Scorer.group. induction results_df as [|r rows IH]; [done|].
    rewrite filter_cons, decide_True by (apply Hall; by left).
    destruct rows as [|r' rows]; [done|]. f_equal. apply IH; [done|].
    intros r'' Hr''. apply Hall. by right. }
  assert (Scorer.unique (Scorer.label <$> results_df) = [l]) as Hkeys.
  { apply singleton_of_NoDup; [apply unique_NoDup| |].
    - intros k Hk. apply unique_elem_of, list_elem_of_fmap in Hk as (r & -> & Hr).
      by apply Hall.
    - apply unique_elem_of. destruct results_df as [|r rows]; [done|].
      rewrite fmap_cons, <-(Hall r) by by left. by left. }
  eexists. split.
  - unfold Scorer.accuracy. destruct results_df; [done|reflexivity].
  - rewrite accuracy_df_rows. unfold Scorer.value_counts. rewrite Hkeys. simpl.
    rewrite Hgroup, occurrences_labels. fold (Scorer.group l results_df).
    rewrite Hgroup. unfold Scorer.mean, Scorer.correct_rows.
    rewrite length_fmap.
    by rewrite (length_filter_fmap_iff _ _ (λ r, Scorer.Correct r = true)).
Qed.

Lemma single_label_table_is_overall_accuracy_witness :
  ∃ a, Scorer.accuracy
         (Scorer.set_Correct (Scorer.of_pairs [("neg", "pos"); ("neg", "neg")]))
       = inr a ∧
       Scorer.accuracy_df
         (Scorer.set_Correct (Scorer.of_pairs [("neg", "pos"); ("neg", "neg")]))
       = [Scorer.AccuracyRow "neg" (Some 2) (Some (Float64.round2 (a * 100)%float))].
Proof.
  apply (single_label_table_is_overall_accuracy
           (Scorer.set_Correct (Scorer.of_pairs [("neg", "pos"); ("neg", "neg")]))
           "neg").
  - done.
  - intros r Hr. simpl in Hr. repeat (apply elem_of_cons in Hr as [->|Hr]; [done|]).
    by apply elem_of_nil in Hr.
Defined.

(** ** Tokenization: what truncation keeps *)

Lemma preprocess_input_ids (tokenizer : transformers.Tokenizer)
    (examples : datasets.example) :
  transformers.input_ids (Tokenization.preprocess_function tokenizer examples) =
  transformers.cls_token_id tokenizer
    :: take 510 (transformers.tokenize tokenizer (datasets.text examples))
       ++ [transformers.sep_token_id tokenizer].
Proof.
  unfold Tokenization.preprocess_function, transformers.call. simpl.
  by rewrite app_nil_r.
Qed.

(** X5: a text of at most 510 tokens is encoded in full: its ids are all
    of its tokens, in order, between the two special tokens. *)
Theorem short_text_is_encoded_in_full
    (tokenizer : transformers.Tokenizer) (examples : datasets.example) :
  let tokens := transformers.tokenize tokenizer (datasets.text examples) in
  (length tokens ≤ 510)%nat →
  transformers.input_ids (Tokenization.preprocess_function tokenizer examples) =
  transformers.cls_token_id tokenizer :: tokens ++ [transformers.sep_token_id tokenizer].
Proof.
  intros tokens Hlen. rewrite preprocess_input_ids. fold tokens.
  by rewrite take_ge by lia.
Qed.

Lemma short_text_is_encoded_in_full_witness :
  transformers.input_ids
    (Tokenization.preprocess_function Samples.char_tokenizer (Samples.review 1 "good"))
  = [101; 103; 111; 111; 100; 102]%Z.
Proof.
  apply (short_text_is_encoded_in_full Samples.char_tokenizer (Samples.review 1 "good")).
  simpl. lia.
Defined.

(** X6: truncation drops the tail only: two rows whose texts agree on their
    first 510 tokens get the same encoding, whatever follows in either. *)
Theorem encoding_depends_on_first_510_tokens
    (tokenizer : transformers.Tokenizer) (ex1 ex2 : datasets.example) :
  take 510 (transformers.tokenize tokenizer (datasets.text ex1)) =
  take 510 (transformers.tokenize tokenizer (datasets.text ex2)) →
  Tokenization.preprocess_function tokenizer ex1 =
  Tokenization.preprocess_function tokenizer ex2.
Proof.
  intros Htake.
  unfold Tokenization.preprocess_function, transformers.call,
    transformers.num_special_tokens. simpl.
  change (512 - 2) with 510. by rewrite Htake.
Qed.

Lemma encoding_depends_on_first_510_tokens_witness :
  Tokenization.preprocess_function Samples.char_tokenizer
    (Samples.review 1 Samples.long_text) =
  Tokenization.preprocess_function Samples.char_tokenizer
    (Samples.review 0 (Samples.long_text ++ " but bad")).
Proof.
  apply (encoding_depends_on_first_510_tokens Samples.char_tokenizer
           (Samples.review 1 Samples.long_text)
           (Samples.review 0 (Samples.long_text ++ " but bad"))).
  by vm_compute.
Defined.

(** X7: the tokenization cell keeps the dataset's shape: the same partition
    names, and in every partition the same number of rows with the same
    label, title and text in the same order, each row now carrying both
    token columns. *)
Theorem tokenize_cell_keeps_rows
    (tokenizer : transformers.Tokenizer) (ds : datasets.DatasetDict)
    (name : string) (rows : datasets.Dataset) :
  ds !! name = Some rows →
  dom (Tokenization.tokenize_cell tokenizer ds) = dom ds ∧
  ∃ rows',
    Tokenization.tokenize_cell tokenizer ds !! name = Some rows' ∧
    length rows' = length rows ∧
    datasets.label <$> rows' = datasets.label <$> rows ∧
    datasets.title <$> rows' = datasets.title <$> rows ∧
    datasets.text <$> rows' = datasets.text <$> rows ∧
    Forall (λ ex, is_Some (datasets.input_ids ex) ∧
                  is_Some (datasets.attention_mask ex)) rows'.
Proof.
  intros Hrows. unfold Tokenization.tokenize_cell, datasets.DatasetDict_map.
  split; [apply dom_fmap_L|].
  eexists. split; [by rewrite lookup_fmap, Hrows|].
  unfold datasets.Dataset_map. rewrite length_fmap, <-!list_fmap_compose.
  do 4 (split; [done|]).
  apply Forall_fmap, Forall_true. intros ex. simpl. by split.
Qed.

Lemma tokenize_cell_keeps_rows_witness :
  ∃ rows',
    Tokenization.tokenize_cell Samples.char_tokenizer (Samples.dataset 3) !! "train"
      = Some rows' ∧
    length rows' = 3.
Proof.
  destruct (tokenize_cell_keeps_rows Samples.char_tokenizer (Samples.dataset 3)
              "train" (Samples.reviews 3)) as (_ & rows' & Hrows' & Hlen & _).
  - by vm_compute.
  - exists rows'. split; [exact Hrows'|]. exact Hlen.
Defined.

(** ** Dataset split: missing partitions and failures *)

Lemma getitem_None {V} (d : gmap string V) (k : string) :
  d !! k = None → Py.getitem d k = inl (Py.KeyError k).
Proof. intros H. unfold Py.getitem. by rewrite H. Qed.

Lemma bind_lift_inl {A B} (e : Py.exception) (k : A → Py.py B) :
  Py.lift (inl e) ≫= k = ([], inl e).
Proof. reflexivity. Qed.

Lemma result_bind_inl {A B} (e : Py.exception) (k : A → Py.result B) :
  (inl e : Py.result A) ≫= k = inl e.
Proof. reflexivity. Qed.

Section split_edges.
Context {Generator : Type}.
Variable default_rng : Z → Generator.
Variable stratified_shuffle_split :
  list Z → nat → nat → Generator → Py.result (list nat * list nat).

(** X8: on a dataset without a train partition the split cell raises
    [KeyError] for "train" at its first line and prints nothing. *)
Theorem split_without_train_raises (test_size : float) (seed global_seed : Z)
    (ds : datasets.DatasetDict) :
  ds !! "train" = None →
  datasets.split_with default_rng stratified_shuffle_split
    test_size seed global_seed ds
  = ([], inl (Py.KeyError "train")).
Proof.
  intros Htrain. unfold datasets.split_with.
  by rewrite (getitem_None _ _ Htrain), bind_lift_inl.
Qed.

(** X9: on a dataset with a train partition but no test partition the split
    cell splits, prints the sizes of train and validation, and only then
    raises [KeyError] for "test", at its last [print]. *)
Theorem split_without_test_raises_late (test_size : float) (seed global_seed : Z)
    (ds : datasets.DatasetDict) (train : datasets.Dataset)
    (indices : list nat * list nat) :
  let n_test :=
    Z.to_nat (Float64.ceil (test_size * Float64.of_nat (length train))%float) in
  let n_train := length train - n_test in
  negb ((0 <? test_size)%float && (test_size <? 1)%float) = false →
  ds !! "train" = Some train →
  ds !! "test" = None →
  n_train ≠ 0 →
  stratified_shuffle_split (datasets.label <$> train) n_train n_test
    (default_rng seed) = inr indices →
  datasets.is_split (length train) n_train n_test indices →
  datasets.split_with default_rng stratified_shuffle_split
    test_size seed global_seed ds
  = (["Samples in train      : " ++ pretty n_train;
      "Samples in validation : " ++ pretty n_test],
     inl (Py.KeyError "test")).
Proof.
  intros n_test n_train Hrange Htrain Htest Hn Hsample Hsplit.
  destruct Hsplit as (Hlen1 & Hlen2 & Hnd & Hlt).
  apply Forall_app in Hlt as [Hlt1 Hlt2].
  unfold datasets.split_with.
  rewrite (getitem_Some _ _ _ Htrain), bind_lift_inr.
  rewrite train_test_split_draw by done. fold n_test. fold n_train.
  rewrite Hsample.
  rewrite !select_in_range by done. rewrite !result_bind_inr.
  set (new_train := (λ i, train !!! i) <$> indices.1).
  set (validation := (λ i, train !!! i) <$> indices.2).
  rewrite result_ret_inr, bind_lift_inr.
  py_getitem "train" new_train.
  py_getitem "test" validation.
  py_getitem "train" new_train.
  rewrite bind_print.
  py_getitem "validation" validation.
  rewrite bind_print.
  rewrite (getitem_None _ "test"), bind_lift_inl by by simplify_map_eq.
  simpl. unfold new_train, validation. by rewrite !length_fmap, Hlen1, Hlen2.
Qed.

(** X10: an exception of the sampler ends the split cell with an exception
    before anything is printed, the cell handling no failure: the sampler's
    own exception, except for its complaint about a class with a single
    member, in place of which the framework's call raises a [ValueError] of
    its own wording. *)
Theorem split_propagates_sampler_failure (test_size : float) (seed global_seed : Z)
    (ds : datasets.DatasetDict) (train : datasets.Dataset) (e : Py.exception) :
  let n_test :=
    Z.to_nat (Float64.ceil (test_size * Float64.of_nat (length train))%float) in
  let n_train := length train - n_test in
  negb ((0 <? test_size)%float && (test_size <? 1)%float) = false →
  ds !! "train" = Some train →
  n_train ≠ 0 →
  stratified_shuffle_split (datasets.label <$> train) n_train n_test
    (default_rng seed) = inl e →
  ∃ e',
    datasets.split_with default_rng stratified_shuffle_split
      test_size seed global_seed ds
    = ([], inl e') ∧
    (e ≠ Py.ValueError "Minimum class count error" → e' = e) ∧
    (e = Py.ValueError "Minimum class count error" →
     ∃ msg, e' = Py.ValueError msg ∧ msg ≠ "Minimum class count error").
Proof.
  intros n_test n_train Hrange Htrain Hn Hsample.
  exists (datasets.stratify_error e). split; [|split].
  - unfold datasets.split_with.
    rewrite (getitem_Some _ _ _ Htrain), bind_lift_inr.
    rewrite train_test_split_draw by done. fold n_test. fold n_train.
    by rewrite Hsample, bind_lift_inl.
  - intros Hne. unfold datasets.stratify_error.
    destruct e as [|key| |msg]; try done.
    destruct (decide (msg = "Minimum class count error")) as [->|Hmsg]; [done|].
    repeat (destruct msg as [|[[] [] [] [] [] [] [] []] msg]; try done).
  - intros ->. eexists. split; [reflexivity|]. done.
Qed.

(** X11: the split cell changes the train and validation entries of the
    dataset and nothing else: the dataset has the partitions it had, plus
    validation, and every partition other than train and validation is as
    before. *)
Theorem split_changes_only_train_and_validation
    (global_seed : Z) (ds : datasets.DatasetDict)
    (train test : datasets.Dataset) (indices : list nat * list nat) :
  let n_test := Z.to_nat (Float64.ceil (0.1 * Float64.of_nat (length train))%float) in
  let n_train := length train - n_test in
  ds !! "train" = Some train →
  ds !! "test" = Some test →
  n_train ≠ 0 →
  stratified_shuffle_split (datasets.label <$> train) n_train n_test (default_rng 42%Z)
    = inr indices →
  datasets.is_split (length train) n_train n_test indices →
  ∃ ds',
    Py.outcome (datasets.split_cell default_rng stratified_shuffle_split global_seed ds)
      = inr ds' ∧
    dom ds' = dom ds ∪ {["validation"]} ∧
    (∀ name, name ≠ "train" → name ≠ "validation" → ds' !! name = ds !! name).
Proof.
  intros n_test n_train Htrain Htest Hn Hsample Hsplit.
  pose proof (split_with_run default_rng stratified_shuffle_split 0.1 42 global_seed
                ds train test indices test_size_cell_in_range
                Htrain Htest Hn Hsample Hsplit) as Hrun.
  eexists. split; [unfold datasets.split_cell; by rewrite Hrun|].
  split.
  { rewrite !dom_insert_L.
    assert ("train" ∈ dom ds) as Hdom by (apply elem_of_dom; eauto).
    apply set_eq. intros name. rewrite !elem_of_union, !elem_of_singleton.
    split.
    - intros [Heq|[Heq|Hin]]; subst; auto.
    - intros [Hin|Heq]; subst; auto. }
  intros name Hne1 Hne2. by rewrite !lookup_insert_ne.
Qed.

End split_edges.

Lemma split_without_train_raises_witness :
  datasets.split_cell (λ seed, seed) Samples.head_sampler 7%Z ∅
  = ([], inl (Py.KeyError "train")).
Proof.
  apply (split_without_train_raises (λ seed, seed) Samples.head_sampler
           0.1 42%Z 7%Z ∅).
  apply lookup_empty.
Defined.

Lemma split_without_test_raises_late_witness :
  datasets.split_cell (λ seed, seed) Samples.head_sampler 7%Z (MoreSamples.train_only 10)
  = (["Samples in train      : 9"; "Samples in validation : 1"],
     inl (Py.KeyError "test")).
Proof.
  apply (split_without_test_raises_late (λ seed, seed) Samples.head_sampler
           0.1 42%Z 7%Z (MoreSamples.train_only 10) (Samples.reviews 10)
           (seq 1 9, seq 0 1)).
  - reflexivity.
  - by vm_compute.
  - by vm_compute.
  - by vm_compute.
  - reflexivity.
  - apply (bool_decide_unpack _). by vm_compute.
Defined.

Lemma split_propagates_sampler_failure_witness :
  ∃ e',
    datasets.split_cell (λ seed, seed) MoreSamples.failing_sampler 7%Z (Samples.dataset 10)
    = ([], inl e') ∧
    ∃ msg, e' = Py.ValueError msg ∧ msg ≠ "Minimum class count error".
Proof.
  destruct (split_propagates_sampler_failure (λ seed, seed) MoreSamples.failing_sampler
              0.1 42%Z 7%Z (Samples.dataset 10) (Samples.reviews 10)
              (Py.ValueError "Minimum class count error"))
    as (e' & Hrun & _ & Hreworded).
  - reflexivity.
  - by vm_compute.
  - by vm_compute.
  - reflexivity.
  - exists e'. split; [exact Hrun|]. by apply Hreworded.
Defined.

Lemma split_changes_only_train_and_validation_witness :
  ∃ ds',
    Py.outcome
      (datasets.split_cell (λ seed, seed) Samples.head_sampler 7%Z (Samples.dataset 10))
      = inr ds' ∧
    dom ds' = dom (Samples.dataset 10) ∪ {["validation"]}.
Proof.
  destruct (split_changes_only_train_and_validation
              (λ seed, seed) Samples.head_sampler 7%Z (Samples.dataset 10)
              (Samples.reviews 10) (Samples.reviews 2) (seq 1 9, seq 0 1))
    as (ds' & Hrun & Hdom & _).
  - by vm_compute.
  - by vm_compute.
  - by vm_compute.
  - reflexivity.
  - apply (bool_decide_unpack _). by vm_compute.
  - exists ds'. by split.
Defined.

(** ** Trainer: what it needs and what it is given *)

(** X12: the trainer cell needs the validation partition the split cell
    creates: on a dataset without one it raises [KeyError], for "train" if
    that is missing too and for "validation" otherwise, and builds no
    trainer. *)
Theorem trainer_needs_validation {Model Metrics : Type}
    (evaluate_load : string → list Z → list Z → string → Metrics)
    (argmax_axis1 : list (list float) → list Z)
    (model : Model) (tokenizer : transformers.Tokenizer)
    (ds : datasets.DatasetDict) :
  ds !! "validation" = None →
  Training.trainer evaluate_load argmax_axis1 model tokenizer ds =
    inl (Py.KeyError (match ds !! "train" with
                      | Some _ => "validation"
                      | None => "train"
                      end)).
Proof.
  intros Hval. unfold Training.trainer, Py.getitem. rewrite Hval.
  by destruct (ds !! "train").
Qed.

Lemma trainer_needs_validation_witness :
  Training.trainer (Model := unit) (λ _ _ _ _, tt) (λ _, []) tt
    Samples.char_tokenizer (Samples.dataset 9)
  = inl (Py.KeyError "validation").
Proof.
  apply (trainer_needs_validation (Model := unit) (λ _ _ _ _, tt) (λ _, []) tt
           Samples.char_tokenizer (Samples.dataset 9)).
  by vm_compute.
Defined.

Lemma preprocess_length_le (tokenizer : transformers.Tokenizer)
    (ex : datasets.example) :
  (length (transformers.input_ids (Tokenization.preprocess_function tokenizer ex))
   ≤ 512)%nat.
Proof.
  pose proof (call_truncated_length tokenizer (datasets.text ex) 512 ltac:(lia)).
  unfold Tokenization.preprocess_function. lia.
Qed.

(** X13: the cells in sequence. After the split cell and the tokenization
    cell the trainer is built; it trains on the tokenized new train
    partition and evaluates on the tokenized validation partition, whose
    sizes are those the split cell printed, every row of both carrying at
    most 512 token ids. *)
Theorem trainer_gets_the_tokenized_split {Generator Model Metrics : Type}
    (default_rng : Z → Generator)
    (stratified_shuffle_split :
       list Z → nat → nat → Generator → Py.result (list nat * list nat))
    (evaluate_load : string → list Z → list Z → string → Metrics)
    (argmax_axis1 : list (list float) → list Z)
    (model : Model) (tokenizer : transformers.Tokenizer)
    (global_seed : Z) (ds : datasets.DatasetDict)
    (train test : datasets.Dataset) (indices : list nat * list nat) :
  let n_test := Z.to_nat (Float64.ceil (0.1 * Float64.of_nat (length train))%float) in
  let n_train := length train - n_test in
  ds !! "train" = Some train →
  ds !! "test" = Some test →
  n_train ≠ 0 →
  stratified_shuffle_split (datasets.label <$> train) n_train n_test (default_rng 42%Z)
    = inr indices →
  datasets.is_split (length train) n_train n_test indices →
  ∃ ds' t new_train validation,
    Py.outcome (datasets.split_cell default_rng stratified_shuffle_split global_seed ds)
      = inr ds' ∧
    datasets.select train indices.1 = inr new_train ∧
    datasets.select train indices.2 = inr validation ∧
    Training.trainer evaluate_load argmax_axis1 model tokenizer
      (Tokenization.tokenize_cell tokenizer ds') = inr t ∧
    Training.train_dataset t =
      datasets.Dataset_map (Tokenization.preprocess_function tokenizer) new_train ∧
    Training.eval_dataset t =
      datasets.Dataset_map (Tokenization.preprocess_function tokenizer) validation ∧
    length (Training.train_dataset t) = n_train ∧
    length (Training.eval_dataset t) = n_test ∧
    Forall (λ ex, ∃ ids, datasets.input_ids ex = Some ids ∧ (length ids ≤ 512)%nat)
      (Training.train_dataset t ++ Training.eval_dataset t).
Proof.
  intros n_test n_train Htrain Htest Hn Hsample Hsplit.
  pose proof (split_with_run default_rng stratified_shuffle_split 0.1 42 global_seed
                ds train test indices test_size_cell_in_range
                Htrain Htest Hn Hsample Hsplit) as Hrun.
  destruct Hsplit as (Hlen1 & Hlen2 & Hnd & Hlt).
  apply Forall_app in Hlt as [Hlt1 Hlt2].
  eexists _, _, _, _.
  split; [unfold datasets.split_cell; by rewrite Hrun|].
  split; [by apply select_in_range|]. split; [by apply select_in_range|].
  split.
  { unfold Training.trainer, Tokenization.tokenize_cell, datasets.DatasetDict_map.
    rewrite (getitem_Some _ "train" _), result_bind_inr
      by (rewrite lookup_fmap; by simplify_map_eq).
    rewrite (getitem_Some _ "validation" _), result_bind_inr
      by (rewrite lookup_fmap; by simplify_map_eq).
    reflexivity. }
  cbn [Training.train_dataset Training.eval_dataset].
  split; [done|]. split; [done|].
  unfold datasets.Dataset_map. rewrite !length_fmap.
  split; [done|]. split; [done|].
  apply Forall_app. split; apply Forall_fmap, Forall_true; intros ex;
    (eexists; split; [reflexivity|]); apply preprocess_length_le.
Qed.

Lemma trainer_gets_the_tokenized_split_witness :
  ∃ ds' t,
    Py.outcome
      (datasets.split_cell (λ seed, seed) Samples.head_sampler 7%Z (Samples.dataset 10))
      = inr ds' ∧
    Training.trainer (Model := unit) (λ _ _ _ _, tt) (λ _, []) tt Samples.char_tokenizer
      (Tokenization.tokenize_cell Samples.char_tokenizer ds') = inr t ∧
    length (Training.eval_dataset t) = 1.
Proof.
  destruct (trainer_gets_the_tokenized_split (Model := unit)
              (λ seed, seed) Samples.head_sampler (λ _ _ _ _, tt) (λ _, []) tt
              Samples.char_tokenizer 7%Z (Samples.dataset 10)
              (Samples.reviews 10) (Samples.reviews 2) (seq 1 9, seq 0 1))
    as (ds' & t & new_train & validation & Hrun & _ & _ & Ht & _ & _ & _ & Hlen & _).
  - by vm_compute.
  - by vm_compute.
  - by vm_compute.
  - reflexivity.
  - apply (bool_decide_unpack _). by vm_compute.
  - exists ds', t. split; [exact Hrun|]. split; [exact Ht|]. exact Hlen.
Defined.

(** ** The library path cell *)








(** X15: the import cell does not bind [nvidia]. Run on the globals that
    the import cell leaves, whatever the modules' files and the environment,
    the library path cell raises [NameError] for [nvidia] and sets nothing. *)
Theorem library_path_cell_raises_NameError
    (file_of : string → string) (environ : gmap string string) :
  Runtime.imports file_of !! "nvidia" = None ∧
  Runtime.set_library_path (Runtime.imports file_of) environ
    = inl (Runtime.NameError "nvidia").
Proof.
  assert (Runtime.imports file_of !! "nvidia" = None) as Hnone.
  { unfold Runtime.imports. apply not_elem_of_list_to_map_1. simpl.
    intros Hin. repeat (apply elem_of_cons in Hin as [?|Hin]; [done|]).
    by apply elem_of_nil in Hin. }
  split; [done|]. unfold Runtime.set_library_path. by rewrite Hnone.
Qed.

(** ** Baseline evaluation frame *)

Lemma align_lookup {A B} (a : list A) (b : list B) (i : nat) :
  Baseline.align a b !! i =
  match a !! i, b !! i with
  | None, None => None
  | x, y => Some (x, y)
  end.
Proof.
  revert b i. induction a as [|x a IH]; intros b i.
  - simpl. rewrite list_lookup_fmap. by destruct (b !! i).
  - destruct b as [|y b].
    + simpl. destruct i as [|i]; [done|]. simpl.
      rewrite list_lookup_fmap. by destruct (a !! i).
    + destruct i as [|i]; [done|]. simpl. apply IH.
Qed.

Lemma length_align {A B} (a : list A) (b : list B) :
  length (Baseline.align a b) = length a `max` length b.
Proof.
  revert b. induction a as [|x a IH]; intros b.
  - simpl. by rewrite length_fmap.
  - destruct b as [|y b]; simpl; [by rewrite length_fmap|]. by rewrite IH.
Qed.

Lemma align_same_length {A B} (a : list A) (b : list B) :
  length a = length b →
  Baseline.align a b = zip_with (λ x y, (Some x, Some y)) a b.
Proof.
  revert b. induction a as [|x a IH]; intros [|y b] Hlen; try done.
  simpl. f_equal. apply IH. by injection Hlen.
Qed.

Lemma replace_id2label (z : Z) :
  is_Some (Baseline.id2label !! z) →
  Baseline.replace z = Baseline.Str (Baseline.id2label !!! z).
Proof.
  intros [name Hname]. unfold Baseline.replace.
  destruct (decide (z = 0%Z)) as [->|H0]; [done|].
  destruct (decide (z = 1%Z)) as [->|H1]; [done|].
  unfold Baseline.id2label in Hname.
  rewrite lookup_insert_ne, lookup_singleton_ne in Hname by done.
  done.
Qed.

Lemma join_rows_scorer (rows : datasets.Dataset) (results : list (string * float)) :
  length results = length rows →
  Forall (λ ex, is_Some (Baseline.id2label !! datasets.label ex)) rows →
  Baseline.join_row false <$> zip_with (λ x y, (Some x, Some y)) rows results =
  Baseline.of_scorer
    <$> Scorer.set_Correct
          (zip_with
             (λ ex r, Scorer.Row (datasets.text ex)
                        (Baseline.id2label !!! datasets.label ex) r.1 r.2 tt)
             rows results).
Proof.
  revert results. induction rows as [|ex rows IH]; intros [|r results] Hlen Hlabels;
    try done.
  apply Forall_cons in Hlabels as [Hex Hrows].
  unfold Scorer.set_Correct in *. csimpl. f_equal.
  - unfold Baseline.join_row, Baseline.of_scorer. simpl.
    by rewrite (replace_id2label _ Hex).
  - apply IH; [|done]. by injection Hlen.
Qed.

(** X16: when the pipeline returned one result per row and every label of
    the evaluated rows is a class id of the model's [id2label], the frame
    the cell builds is exactly a scorer frame: its rows are the first ten
    test rows, each with its text, its label under the name [id2label]
    gives it, the predicted label and score of its result, and [Correct]
    telling whether the two names are equal; nothing is missing. *)
Theorem frame_is_a_scorer_frame
    (test : datasets.Dataset) (results : list (string * float)) :
  test ≠ [] →
  length results = length (Baseline.df_test test) →
  Forall (λ ex, is_Some (Baseline.id2label !! datasets.label ex))
    (Baseline.df_test test) →
  Baseline.results_df (Baseline.df_test test) results =
    inr (Baseline.of_scorer
           <$> Scorer.set_Correct
                 (zip_with
                    (λ ex r, Scorer.Row (datasets.text ex)
                               (Baseline.id2label !!! datasets.label ex) r.1 r.2 tt)
                    (Baseline.df_test test) results)).
Proof.
  intros Hne Hlen Hlabels. unfold Baseline.results_df.
  destruct results as [|r results].
  { destruct test; [done|]. simpl in Hlen. discriminate. }
  f_equal. rewrite align_same_length by done.
  unfold Baseline.float_labels.
  rewrite (bool_decide_eq_false_2 (_ < _)%nat), andb_false_r by lia.
  by apply join_rows_scorer.
Qed.

Lemma frame_is_a_scorer_frame_witness :
  Baseline.results_df (Baseline.df_test (Samples.reviews 3))
    (MoreSamples.always_positive (Baseline.sentences (Samples.reviews 3)))
  = inr (Baseline.of_scorer
           <$> Scorer.set_Correct
                 [Scorer.Row "review 0" "negative" "positive" 0.5%float tt;
                  Scorer.Row "review 1" "positive" "positive" 0.5%float tt;
                  Scorer.Row "review 2" "negative" "positive" 0.5%float tt]).
Proof.
  apply (frame_is_a_scorer_frame (Samples.reviews 3)
           (MoreSamples.always_positive (Baseline.sentences (Samples.reviews 3)))).
  - done.
  - reflexivity.
  - apply (bool_decide_unpack _). by vm_compute.
Defined.

(** X17: only the first ten test rows are evaluated: two datasets whose
    test partitions agree on their first ten rows give the same frame (or
    the same exception), whatever else they hold. *)
Theorem frame_reads_first_ten_test_rows
    (nlp : list string → list (string * float))
    (ds1 ds2 : datasets.DatasetDict) (test1 test2 : datasets.Dataset) :
  ds1 !! "test" = Some test1 →
  ds2 !! "test" = Some test2 →
  take 10 test1 = take 10 test2 →
  Baseline.baseline_frame nlp ds1 = Baseline.baseline_frame nlp ds2.
Proof.
  intros H1 H2 Htake. unfold Baseline.baseline_frame.
  rewrite (getitem_Some _ _ _ H1), (getitem_Some _ _ _ H2), !result_bind_inr.
  unfold Baseline.sentences, Baseline.df_test.
  by rewrite <-!fmap_take, Htake.
Qed.

Lemma frame_reads_first_ten_test_rows_witness :
  Baseline.baseline_frame MoreSamples.always_positive
    {[ "test" := Samples.reviews 12 ]}
  = Baseline.baseline_frame MoreSamples.always_positive
      {[ "test" := Samples.reviews 10; "train" := Samples.reviews 4 ]}.
Proof.
  apply (frame_reads_first_ten_test_rows MoreSamples.always_positive
           {[ "test" := Samples.reviews 12 ]}
           {[ "test" := Samples.reviews 10; "train" := Samples.reviews 4 ]}
           (Samples.reviews 12) (Samples.reviews 10)).
  - by vm_compute.
  - by vm_compute.
  - by vm_compute.
Defined.

(** X18: a frame this cell builds has as many rows as the longer of
    [df_test] and the results, and at least one; a row past the end of the
    shorter of the two has a side missing and is marked incorrect. *)
Theorem frame_rows_and_padding
    (df_test : datasets.Dataset) (results : list (string * float))
    (frame : list Baseline.row) :
  Baseline.results_df df_test results = inr frame →
  frame ≠ [] ∧
  length frame = length df_test `max` length results ∧
  ∀ i row, frame !! i = Some row →
           (length df_test `min` length results ≤ i)%nat →
           Baseline.Correct row = false ∧
           (Baseline.label row = Baseline.NaN ∨ Baseline.pred row = Baseline.NaN).
Proof.
  unfold Baseline.results_df. destruct results as [|r results]; [done|].
  intros [= <-].
  assert (length (Baseline.join_row (Baseline.float_labels df_test (r :: results))
                    <$> Baseline.align df_test (r :: results))
          = length df_test `max` length (r :: results)) as Hlen.
  { by rewrite length_fmap, length_align. }
  split; [|split; [exact Hlen|]].
  - intros Hnil. rewrite Hnil in Hlen. simpl in Hlen. lia.
  - intros i row Hrow Hi. rewrite list_lookup_fmap, align_lookup in Hrow.
    destruct (df_test !! i) as [ex|] eqn:Hex, ((r :: results) !! i) as [res|] eqn:Hres;
      simpl in Hrow; try discriminate.
    + apply lookup_lt_Some in Hex, Hres. lia.
    + injection Hrow as <-. unfold Baseline.join_row, Baseline.eq. simpl.
      split; [|by right].
      destruct (Baseline.float_labels df_test (r :: results)); [done|].
      by destruct (Baseline.replace (datasets.label ex)).
    + injection Hrow as <-. unfold Baseline.join_row, Baseline.eq. simpl.
      split; [done|by left].
Qed.

Lemma frame_rows_and_padding_witness :
  ∃ frame,
    Baseline.results_df (Samples.reviews 3) [("positive", 0.5%float)] = inr frame ∧
    length frame = 3.
Proof.
  eexists. split; [reflexivity|].
  apply (frame_rows_and_padding (Samples.reviews 3) [("positive", 0.5%float)]).
  reflexivity.
Defined.

(** X19: when the pipeline returns no result, as for no sentence at all, the
    frame cell raises [ValueError] at the renaming of the columns: the
    accuracy cell is not reached with a frame of zero rows. *)
Theorem frame_of_no_result_raises
    (nlp : list string → list (string * float))
    (ds : datasets.DatasetDict) (test : datasets.Dataset) :
  ds !! "test" = Some test →
  nlp (Baseline.sentences test) = [] →
  ∃ msg, Baseline.baseline_frame nlp ds = inl (Py.ValueError msg).
Proof.
  intros Htest Hnlp. unfold Baseline.baseline_frame.
  rewrite (getitem_Some _ _ _ Htest), result_bind_inr, Hnlp. by eexists.
Qed.

Lemma frame_of_no_result_raises_witness :
  ∃ msg, Baseline.baseline_frame MoreSamples.always_positive {[ "test" := [] ]}
         = inl (Py.ValueError msg).
Proof.
  apply (frame_of_no_result_raises MoreSamples.always_positive {[ "test" := [] ]} []).
  - by vm_compute.
  - reflexivity.
Defined.


